(** * stix2.properties: the property kinds of STIX objects

    A shallow embedding of [stix2/properties.py] and the properties of its
    [clean] / [validate] / [default] protocol.

    The embedding follows Python 3 (3.7 or later: [datetime.combine] takes
    [tzinfo], [bool] takes no keyword).  A Python [str] is a list of
    characters with code points below 256; exceptions are values of [exn]
    and a call returns a [result].  What the module takes from libraries
    ([uuid], [re], [datetime], [pytz]) is written out from those libraries;
    [dateutil.parser.parse] and the string conversion of composite values
    are parameters of the development. *)

From Stdlib Require Import ZArith List Ascii String Bool Lia.
From Stdlib Require Import Strings.Byte.
From Stdlib Require Import DecimalString.
From Stdlib Require Import Floats.PrimFloat Floats.SpecFloat Floats.FloatOps.
Import ListNotations.

Set Implicit Arguments.

(** ** Python strings *)

Definition pystr := list ascii.

(** A string literal of the source. *)
Definition str (s : string) : pystr := list_ascii_of_string s.

Definition ascii_in (lo hi c : ascii) : bool :=
  ((nat_of_ascii lo <=? nat_of_ascii c) && (nat_of_ascii c <=? nat_of_ascii hi))%nat.

Fixpoint pystr_eqb (a b : pystr) : bool :=
  match a, b with
  | [], [] => true
  | c :: a', d :: b' => Ascii.eqb c d && pystr_eqb a' b'
  | _, _ => false
  end.

(** [c.lower()] on a code point below 256: the capital letters are [A] to
    [Z] and the code points 192 to 222 other than the multiplication sign
    215; each has its small letter 32 places further on. *)
Definition lower_char (c : ascii) : ascii :=
  let n := nat_of_ascii c in
  if ascii_in "A" "Z" c || ((192 <=? n) && (n <=? 222) && negb (Nat.eqb n 215))%nat
  then ascii_of_nat (n + 32) else c.

(** [s.lower()] *)
Definition py_lower (s : pystr) : pystr := map lower_char s.

(** [s.startswith(p)] *)
Fixpoint startswith (s p : pystr) {struct p} : bool :=
  match p, s with
  | [], _ => true
  | c :: p', d :: s' => Ascii.eqb c d && startswith s' p'
  | _ :: _, [] => false
  end.

(** [s.split(sep, 1)] for a non-empty [sep]: the string cut at the first
    occurrence of [sep], or the string alone when there is none. *)
Fixpoint split1 (sep s : pystr) : list pystr :=
  if startswith s sep then [[]; skipn (List.length sep) s]
  else match s with
       | [] => [[]]
       | c :: s' =>
           match split1 sep s' with
           | before :: rest => (c :: before) :: rest
           | [] => [[c]]
           end
       end.

(** [s.replace(old, "")] for a non-empty [old]. *)
Fixpoint remove_all_fuel (fuel : nat) (old s : pystr) : pystr :=
  match fuel with
  | O => s
  | S fuel' =>
      if startswith s old then remove_all_fuel fuel' old (skipn (List.length old) s)
      else match s with
           | [] => []
           | c :: s' => c :: remove_all_fuel fuel' old s'
           end
  end.

Definition replace_empty (old s : pystr) : pystr :=
  remove_all_fuel (S (List.length s)) old s.

(** [s.strip(chars)] *)
Fixpoint lstrip (p : ascii -> bool) (s : pystr) : pystr :=
  match s with
  | c :: s' => if p c then lstrip p s' else s
  | [] => []
  end.

Definition rstrip (p : ascii -> bool) (s : pystr) : pystr :=
  rev (lstrip p (rev s)).

Definition strip (p : ascii -> bool) (s : pystr) : pystr :=
  rstrip p (lstrip p s).

Definition mem_char (chars : pystr) (c : ascii) : bool :=
  existsb (Ascii.eqb c) chars.

(** ** Exceptions and results *)

Inductive exn : Type :=
| ValueError (msg : pystr)
| TypeError
| AttributeError
| NotImplementedError
| IndexError
| OverflowError.

Inductive result (A : Type) : Type :=
| Ok (a : A)
| Raise (e : exn).

Arguments Ok {A} a.
Arguments Raise {A} e.

Definition bind {A B : Type} (m : result A) (k : A -> result B) : result B :=
  match m with
  | Ok a => k a
  | Raise e => Raise e
  end.

Notation "x <- m ;; k" := (bind m (fun x => k))
  (at level 61, m at next level, right associativity).

(** ** Dates and times ([datetime], [pytz]) *)

Record date : Type := mk_date { year : Z; month : Z; day : Z }.

Record time : Type :=
  mk_time { hour : Z; minute : Z; second : Z; microsecond : Z }.

(** A [tzinfo] object of [pytz] or [dateutil]: every such object has one
    name and one fixed offset from UTC, in seconds. *)
Record tzinfo : Type := mk_tzinfo { zone : pystr; utcoffset : Z }.

Record datetime : Type :=
  mk_datetime { dt_date : date; dt_time : time; dt_tzinfo : option tzinfo }.

(** [pytz.utc] *)
Definition pytz_utc : tzinfo := mk_tzinfo (str "UTC") 0.

(** [pytz.timezone('US/Eastern')]: the zone object as [pytz] hands it out,
    which carries the zone's local mean time, 4 h 56 min behind UTC. *)
Definition pytz_US_Eastern : tzinfo := mk_tzinfo (str "US/Eastern") (-17760).

Definition tzinfo_eqb (a b : tzinfo) : bool :=
  pystr_eqb (zone a) (zone b) && (utcoffset a =? utcoffset b)%Z.

(** [dt.time()]: midnight. *)
Definition dt_time_midnight : time := mk_time 0 0 0 0.

Definition date_eqb (a b : date) : bool :=
  ((year a =? year b) && (month a =? month b) && (day a =? day b))%Z.

Definition time_eqb (a b : time) : bool :=
  ((hour a =? hour b) && (minute a =? minute b) && (second a =? second b)
   && (microsecond a =? microsecond b))%Z.

Section Calendar.
Local Open Scope Z_scope.

Definition _is_leap (y : Z) : bool :=
  (y mod 4 =? 0) && (negb (y mod 100 =? 0) || (y mod 400 =? 0)).

Definition _days_before_year (y : Z) : Z :=
  let y := y - 1 in y * 365 + y / 4 - y / 100 + y / 400.

Definition _DAYS_IN_MONTH : list Z :=
  [-1; 31; 28; 31; 30; 31; 30; 31; 31; 30; 31; 30; 31].

Definition _DAYS_BEFORE_MONTH : list Z :=
  [-1; 0; 31; 59; 90; 120; 151; 181; 212; 243; 273; 304; 334].

Definition _days_before_month (y m : Z) : Z :=
  nth (Z.to_nat m) _DAYS_BEFORE_MONTH 0
  + (if (2 <? m) && _is_leap y then 1 else 0).

Definition _ymd2ord (d : date) : Z :=
  _days_before_year (year d) + _days_before_month (year d) (month d) + day d.

Definition _MAXORDINAL : Z := 3652059.

Definition _ord2ymd (n : Z) : date :=
  let n := n - 1 in
  let n400 := n / 146097 in
  let n := n mod 146097 in
  let y := n400 * 400 + 1 in
  let n100 := n / 36524 in
  let n := n mod 36524 in
  let n4 := n / 1461 in
  let n := n mod 1461 in
  let n1 := n / 365 in
  let n := n mod 365 in
  let y := y + n100 * 100 + n4 * 4 + n1 in
  if (n1 =? 4) || (n100 =? 4) then mk_date (y - 1) 12 31
  else
    let leapyear := (n1 =? 3) && (negb (n4 =? 24) || (n100 =? 3)) in
    let m := Z.shiftr (n + 50) 5 in
    let preceding :=
      nth (Z.to_nat m) _DAYS_BEFORE_MONTH 0
      + (if (2 <? m) && leapyear then 1 else 0) in
    if n <? preceding then
      let m := m - 1 in
      let preceding :=
        preceding - (nth (Z.to_nat m) _DAYS_IN_MONTH 0
                     + (if (m =? 2) && leapyear then 1 else 0)) in
      mk_date y m (n - preceding + 1)
    else mk_date y m (n - preceding + 1).

(** Seconds of the wall clock since the start of day 0. *)
Definition wall_seconds (d : date) (t : time) : Z :=
  _ymd2ord d * 86400 + hour t * 3600 + minute t * 60 + second t.

(** [d - timedelta(seconds=off)], keeping [tzinfo]: [datetime.__sub__]. *)
Definition datetime_sub_seconds (d : datetime) (off : Z) : result datetime :=
  let total := wall_seconds (dt_date d) (dt_time d) - off in
  let days := total / 86400 in
  let secs := total mod 86400 in
  if (0 <? days) && (days <=? _MAXORDINAL) then
    Ok (mk_datetime (_ord2ymd days)
          (mk_time (secs / 3600) (secs mod 3600 / 60) (secs mod 3600 mod 60)
             (microsecond (dt_time d)))
          (dt_tzinfo d))
  else Raise OverflowError.

(** [d.replace(tzinfo=tz)] *)
Definition replace_tzinfo (d : datetime) (tz : option tzinfo) : datetime :=
  mk_datetime (dt_date d) (dt_time d) tz.

(** [d.astimezone(tz)] for an aware [d] and a [tz] whose [fromutc] keeps
    the wall clock, as [pytz.utc]'s does. *)
Definition astimezone (d : datetime) (tz : tzinfo) : result datetime :=
  match dt_tzinfo d with
  | None => Raise (ValueError (str "astimezone() cannot be applied to a naive datetime"))
  | Some mytz =>
      if tzinfo_eqb tz mytz then Ok d
      else
        utc <- datetime_sub_seconds d (utcoffset mytz) ;;
        Ok (replace_tzinfo utc (Some tz))
  end.

(** [pytz.utc.localize(d)] *)
Definition pytz_utc_localize (d : datetime) : result datetime :=
  match dt_tzinfo d with
  | Some _ => Raise (ValueError (str "Not naive datetime (tzinfo is already set)"))
  | None => Ok (replace_tzinfo d (Some pytz_utc))
  end.

(** [datetime.combine(d, t, tzinfo=tz)] *)
Definition datetime_combine (d : date) (t : time) (tz : tzinfo) : datetime :=
  mk_datetime d t (Some tz).

(** [a == b] on datetimes: equal offsets compare the fields, a naive and
    an aware one differ, two aware ones compare their instants. *)
Definition datetime_eqb (a b : datetime) : bool :=
  let off d := option_map utcoffset (dt_tzinfo d) in
  match off a, off b with
  | None, None => date_eqb (dt_date a) (dt_date b) && time_eqb (dt_time a) (dt_time b)
  | Some oa, Some ob =>
      (wall_seconds (dt_date a) (dt_time a) - oa
         =? wall_seconds (dt_date b) (dt_time b) - ob)
      && (microsecond (dt_time a) =? microsecond (dt_time b))
  | _, _ => false
  end.
End Calendar.

(** ** Python values *)

(** The values a property can be handed.  [PyStix] is an instance of
    [_STIXBase], the object class of [stix2/base.py]; it holds the object's
    properties by name (see [stix_getattr]).  A value carries no identity:
    two values are two objects. *)
#[local] Unset Elimination Schemes.
Inductive PyValue : Type :=
| PyNone
| PyBool (b : bool)
| PyInt (n : Z)
| PyFloat (f : float)
| PyStr (s : pystr)
| PyList (items : list PyValue)
| PyDict (items : list (pystr * PyValue))
| PyDate (d : date)
| PyDateTime (d : datetime)
| PyStix (props : list (pystr * PyValue)).
#[local] Set Elimination Schemes.

Fixpoint lookup {A : Type} (k : pystr) (items : list (pystr * A)) : option A :=
  match items with
  | [] => None
  | (k', v) :: rest => if pystr_eqb k k' then Some v else lookup k rest
  end.

(** [f == n] for a float and an int: Python compares the two exactly. *)
Definition float_eqb_Z (f : float) (n : Z) : bool :=
  match Prim2SF f with
  | S754_zero _ => (n =? 0)%Z
  | S754_finite s m e =>
      Bool.eqb s (n <? 0)%Z
      && match e with
         | Zneg p => (Z.pos m =? Z.shiftl (Z.abs n) (Z.pos p))%Z
         | _ => (Z.shiftl (Z.pos m) e =? Z.abs n)%Z
         end
  | S754_infinity _ | S754_nan => false
  end.

(** [a == b].  Sequences compare their items in order and mappings compare
    their items by key; a STIX object is a [Mapping], which is equal to any
    mapping, a [dict] too, that has the same items; a [date] and a
    [datetime] never compare equal.  The items of a container are compared
    with [==] as distinct objects are (Python takes an item that is the very
    same object for equal without asking [==], which shows on a NaN only). *)
Fixpoint py_eq (a b : PyValue) {struct a} : bool :=
  let mapping_eq :=
    fun (xs ys : list (pystr * PyValue)) =>
      (List.length xs =? List.length ys)%nat
      && (fix each (xs : list (pystr * PyValue)) : bool :=
            match xs with
            | [] => true
            | (k, v) :: xs' =>
                match lookup k ys with
                | Some w => py_eq v w
                | None => false
                end && each xs'
            end) xs in
  match a, b with
  | PyNone, PyNone => true
  | PyBool x, PyBool y => Bool.eqb x y
  | PyBool x, PyInt y => (Z.b2z x =? y)%Z
  | PyBool x, PyFloat y => float_eqb_Z y (Z.b2z x)
  | PyInt x, PyBool y => (x =? Z.b2z y)%Z
  | PyInt x, PyInt y => (x =? y)%Z
  | PyInt x, PyFloat y => float_eqb_Z y x
  | PyFloat x, PyBool y => float_eqb_Z x (Z.b2z y)
  | PyFloat x, PyInt y => float_eqb_Z x y
  | PyFloat x, PyFloat y => PrimFloat.eqb x y
  | PyStr x, PyStr y => pystr_eqb x y
  | PyList xs, PyList ys =>
      (fix all2 (xs ys : list PyValue) : bool :=
         match xs, ys with
         | [], [] => true
         | x :: xs', y :: ys' => py_eq x y && all2 xs' ys'
         | _, _ => false
         end) xs ys
  | PyDict xs, PyDict ys | PyDict xs, PyStix ys
  | PyStix xs, PyDict ys | PyStix xs, PyStix ys => mapping_eq xs ys
  | PyDate x, PyDate y => date_eqb x y
  | PyDateTime x, PyDateTime y => datetime_eqb x y
  | _, _ => false
  end.

(** [bool(v)], the truth value an [if] tests. *)
Definition py_truthy (v : PyValue) : bool :=
  match v with
  | PyNone => false
  | PyBool b => b
  | PyInt n => negb (n =? 0)%Z
  | PyFloat f => negb (PrimFloat.eqb f 0%float)
  | PyStr s => negb (Nat.eqb (List.length s) 0)
  | PyList l => negb (Nat.eqb (List.length l) 0)
  | PyDict d => negb (Nat.eqb (List.length d) 0)
  | PyDate _ | PyDateTime _ => true
  | PyStix props => negb (Nat.eqb (List.length props) 0)
  end.

(** [iter(v)]: the items a [for] loop sees, or [None] when [v] is not
    iterable ([TypeError]). *)
Definition py_iter (v : PyValue) : option (list PyValue) :=
  match v with
  | PyStr s => Some (map (fun c => PyStr [c]) s)
  | PyList l => Some l
  | PyDict d => Some (map (fun kv => PyStr (fst kv)) d)
  | PyStix props => Some (map (fun kv => PyStr (fst kv)) props)
  | _ => None
  end.

(** [isinstance(v, dt.date)]: [datetime] is a subclass of [date]. *)
Definition isinstance_date (v : PyValue) : bool :=
  match v with
  | PyDate _ | PyDateTime _ => true
  | _ => false
  end.

(** Modelled from the spec: the base object class [_STIXBase], which holds
    the named properties of an object, is defined in [stix2/base.py],
    outside the module.  It is a [Mapping] whose [__getattr__] is
    [self.get], so that an object reads an attribute as it reads a key:
    [obj.name] is the property of that name, and [None] when the object has
    none. *)
Definition stix_getattr (props : list (pystr * PyValue)) (name : pystr) : PyValue :=
  match lookup name props with
  | Some v => v
  | None => PyNone
  end.

(** [f(...)] where [f] is one of the values here: none of them can be
    called. *)
Definition py_call {A : Type} (f : PyValue) : result A := Raise TypeError.

(** [v.startswith(p)]: a method of strings.  A STIX object answers the
    attribute with a value, and the call of that value fails; the other
    values have no such attribute. *)
Definition method_startswith (v : PyValue) (p : pystr) : result bool :=
  match v with
  | PyStr s => Ok (startswith s p)
  | PyStix props => py_call (stix_getattr props (str "startswith"))
  | _ => Raise AttributeError
  end.

(** [v.lower()], in the same way. *)
Definition method_lower (v : PyValue) : result pystr :=
  match v with
  | PyStr s => Ok (py_lower s)
  | PyStix props => py_call (stix_getattr props (str "lower"))
  | _ => Raise AttributeError
  end.

(** [v.id] of a STIX object. *)
Definition attr_id (props : list (pystr * PyValue)) : result PyValue :=
  Ok (stix_getattr props (str "id")).


(** ** Regular expressions ([re]) *)

(** The patterns of the module use literals, character sets, sequence,
    alternation and counted or unbounded greedy repetition.  A compiled
    pattern between [^] and [$] is kept as its body. *)
Inductive regex : Type :=
| Nothing
| Empty
| Set_ (p : ascii -> bool)
| Cat (r1 r2 : regex)
| Alt (r1 r2 : regex)
| Repeat (lo : nat) (hi : option nat) (r : regex).

Definition Lit (c : ascii) : regex := Set_ (Ascii.eqb c).

Definition within (k : nat) (hi : option nat) : bool :=
  match hi with
  | None => true
  | Some h => (k <=? h)%nat
  end.

Definition pred_bound (hi : option nat) : option nat := option_map Nat.pred hi.

Fixpoint nullable (r : regex) : bool :=
  match r with
  | Nothing => false
  | Empty => true
  | Set_ _ => false
  | Cat r1 r2 => nullable r1 && nullable r2
  | Alt r1 r2 => nullable r1 || nullable r2
  | Repeat lo hi r => within lo hi && (Nat.eqb lo 0 || nullable r)
  end.

Definition cat (r1 r2 : regex) : regex :=
  match r1, r2 with
  | Nothing, _ => Nothing
  | _, Nothing => Nothing
  | Empty, _ => r2
  | _, _ => Cat r1 r2
  end.

Definition alt (r1 r2 : regex) : regex :=
  match r1, r2 with
  | Nothing, _ => r2
  | _, Nothing => r1
  | _, _ => Alt r1 r2
  end.

(** The pattern that matches what is left of a match of [r] after [c]. *)
Fixpoint deriv (c : ascii) (r : regex) : regex :=
  match r with
  | Nothing | Empty => Nothing
  | Set_ p => if p c then Empty else Nothing
  | Cat r1 r2 =>
      alt (cat (deriv c r1) r2) (if nullable r1 then deriv c r2 else Nothing)
  | Alt r1 r2 => alt (deriv c r1) (deriv c r2)
  | Repeat lo hi r' =>
      if within 1 hi then cat (deriv c r') (Repeat (Nat.pred lo) (pred_bound hi) r')
      else Nothing
  end.

(** Whether [r] matches the whole of [s]. *)
Fixpoint matches (r : regex) (s : pystr) : bool :=
  match s with
  | [] => nullable r
  | c :: s' => matches (deriv c r) s'
  end.

Definition newline : ascii := ascii_of_nat 10.

(** [re.compile("^" + body + "$").match(s)]: [$] stands at the end of the
    string and also just before a newline that ends it. *)
Definition match_to_dollar (body : regex) (s : pystr) : bool :=
  matches body s
  || match rev s with
     | c :: before => Ascii.eqb c newline && matches body (rev before)
     | [] => false
     end.

(** [REGEX.match(v)] as a truth value; the argument must be a string. *)
Definition regex_match (body : regex) (v : PyValue) : result bool :=
  match v with
  | PyStr s => Ok (match_to_dollar body s)
  | _ => Raise TypeError
  end.

Definition is_lower (c : ascii) : bool := ascii_in "a" "z" c.
Definition is_digit (c : ascii) : bool := ascii_in "0" "9" c.
Definition is_hex (c : ascii) : bool :=
  is_digit c || ascii_in "a" "f" c || ascii_in "A" "F" c.

(** [[a-z-]] *)
Definition lower_or_hyphen (c : ascii) : bool := is_lower c || Ascii.eqb c "-".

(** [[a-z0-9_-]] *)
Definition selector_char (c : ascii) : bool :=
  is_lower c || is_digit c || Ascii.eqb c "_" || Ascii.eqb c "-".

Definition exactly (n : nat) (r : regex) : regex := Repeat n (Some n) r.

(** [REF_REGEX]:
    [^[a-z][a-z-]+[a-z]--[0-9a-fA-F]{8}-[0-9a-fA-F]{4}-[0-9a-fA-F]{4}-[0-9a-fA-F]{4}-[0-9a-fA-F]{12}$] *)
Definition REF_REGEX : regex :=
  Cat (Set_ is_lower)
 (Cat (Repeat 1 None (Set_ lower_or_hyphen))
 (Cat (Set_ is_lower)
 (Cat (Lit "-") (Cat (Lit "-")
 (Cat (exactly 8 (Set_ is_hex)) (Cat (Lit "-")
 (Cat (exactly 4 (Set_ is_hex)) (Cat (Lit "-")
 (Cat (exactly 4 (Set_ is_hex)) (Cat (Lit "-")
 (Cat (exactly 4 (Set_ is_hex)) (Cat (Lit "-")
      (exactly 12 (Set_ is_hex)))))))))))))).

(** [SELECTOR_REGEX]: [^[a-z0-9_-]{3,250}(\.(\[\d+\]|[a-z0-9_-]{1,250}))*$] *)
Definition SELECTOR_REGEX : regex :=
  Cat (Repeat 3 (Some 250) (Set_ selector_char))
      (Repeat 0 None
         (Cat (Lit ".")
              (Alt (Cat (Lit "[") (Cat (Repeat 1 None (Set_ is_digit)) (Lit "]")))
                   (Repeat 1 (Some 250) (Set_ selector_char))))).

(** ** Integers and UUIDs ([int], [uuid]) *)

(** The characters [int()] skips as white space around a literal: the
    ASCII ones, 9 to 13 and the space; and, since a string with a character
    above 127 is first rewritten with a space for each of its Unicode
    spaces above 127, the code points 133 and 160 as well.  (The code points
    28 to 31 are below 127 and are left as they are, so they are no white
    space here.) *)
Definition is_space (c : ascii) : bool :=
  let n := nat_of_ascii c in
  ((9 <=? n) && (n <=? 13) || Nat.eqb n 32
   || Nat.eqb n 133 || Nat.eqb n 160)%nat.

Definition hex_value (c : ascii) : option Z :=
  let n := Z.of_nat (nat_of_ascii c) in
  if is_digit c then Some (n - 48)%Z
  else if ascii_in "a" "f" c then Some (n - 87)%Z
  else if ascii_in "A" "F" c then Some (n - 55)%Z
  else None.

(** The digits of an integer literal in base 16: single underscores may
    separate digits.  [prev] tells whether the character before was an
    underscore. *)
Fixpoint hex_digits_value (s : pystr) (prev : bool) (acc : Z) : option Z :=
  match s with
  | [] => if prev then None else Some acc
  | c :: s' =>
      if Ascii.eqb c "_" then
        if prev then None else hex_digits_value s' true acc
      else
        match hex_value c with
        | Some d => hex_digits_value s' false (acc * 16 + d)%Z
        | None => None
        end
  end.

Definition invalid_literal : exn :=
  ValueError (str "invalid literal for int() with base 16").

(** [int(s, 16)]: white space around, a sign, a [0x] prefix, then digits. *)
Definition int16 (s : pystr) : result Z :=
  let s := strip is_space s in
  let '(negative, s) :=
    match s with
    | c :: s' =>
        if Ascii.eqb c "+" then (false, s')
        else if Ascii.eqb c "-" then (true, s')
        else (false, s)
    | [] => (false, s)
    end in
  let s :=
    match s with
    | z :: x :: s' =>
        if Ascii.eqb z "0" && (Ascii.eqb x "x" || Ascii.eqb x "X") then
          match s' with
          | u :: s'' => if Ascii.eqb u "_" then s'' else s'
          | [] => s'
          end
        else s
    | _ => s
    end in
  match s with
  | [] => Raise invalid_literal
  | c :: _ =>
      if Ascii.eqb c "_" then Raise invalid_literal
      else
        match hex_digits_value s false 0 with
        | Some n => Ok (if negative then (- n)%Z else n)
        | None => Raise invalid_literal
        end
  end.

(** The end of [UUID.__init__]: with a [version], the variant and version
    bits of the integer are overwritten; nothing is compared. *)
Definition UUID_finish (int : Z) (version : option Z) : result Z :=
  if negb ((0 <=? int) && (int <? Z.shiftl 1 128))%Z then
    Raise (ValueError (str "int is out of range (need a 128-bit value)"))
  else
    match version with
    | None => Ok int
    | Some version =>
        if negb ((1 <=? version) && (version <=? 5))%Z then
          Raise (ValueError (str "illegal version number"))
        else
          let int := Z.land int (Z.lnot (Z.shiftl 0xc000 48)) in
          let int := Z.lor int (Z.shiftl 0x8000 48) in
          let int := Z.land int (Z.lnot (Z.shiftl 0xf000 64)) in
          let int := Z.lor int (Z.shiftl version 76) in
          Ok int
    end.

(** [uuid.UUID(hex, version=version)], as the integer the object holds. *)
Definition UUID_of_hex (hex : pystr) (version : option Z) : result Z :=
  let hex := replace_empty (str "uuid:") (replace_empty (str "urn:") hex) in
  let hex := replace_empty (str "-") (strip (mem_char (str "{}")) hex) in
  if negb (Nat.eqb (List.length hex) 32) then
    Raise (ValueError (str "badly formed hexadecimal UUID string"))
  else
    int <- int16 hex ;;
    UUID_finish int version.

(** [int.from_bytes(b, byteorder='big')] *)
Definition int_from_bytes (b : list byte) : Z :=
  fold_left (fun acc x => (acc * 256 + Z.of_N (Byte.to_N x))%Z) b 0%Z.

(** [uuid.UUID(bytes=b, version=version)] *)
Definition UUID_of_bytes (b : list byte) (version : option Z) : result Z :=
  if negb (Nat.eqb (List.length b) 16) then
    Raise (ValueError (str "bytes is not a 16-char string"))
  else UUID_finish (int_from_bytes b) version.

(** The version field of a UUID: bits 76 to 79. *)
Definition UUID_version (int : Z) : Z := Z.land (Z.shiftr int 76) 0xf.

Definition hex_char (d : Z) : ascii :=
  nth (Z.to_nat d) (str "0123456789abcdef") "0"%char.

Fixpoint hex_digits (fuel : nat) (n : Z) (acc : pystr) : pystr :=
  match fuel with
  | O => acc
  | S fuel' =>
      let acc := hex_char (n mod 16) :: acc in
      if (n / 16 =? 0)%Z then acc else hex_digits fuel' (n / 16) acc
  end.

(** ['%032x' % n] for a non-negative [n]. *)
Definition format_032x (n : Z) : pystr :=
  let digits := hex_digits (S (Z.to_nat (Z.log2 n))) n [] in
  repeat "0"%char (32 - List.length digits) ++ digits.

(** [str(u)] of a UUID holding [int]. *)
Definition UUID___str__ (int : Z) : pystr :=
  let hex := format_032x int in
  firstn 8 hex ++ str "-" ++ firstn 4 (skipn 8 hex) ++ str "-"
  ++ firstn 4 (skipn 12 hex) ++ str "-" ++ firstn 4 (skipn 16 hex) ++ str "-"
  ++ skipn 20 hex.

(** [uuid.uuid4()], from the 16 bytes [os.urandom(16)] returned. *)
Definition uuid4 (urandom : list byte) : result Z :=
  UUID_of_bytes urandom (Some 4%Z).

(** ** The property kinds *)

Section Properties.

(** [str(v)] of a float, a container, a date or an object, which the
    interpreter provides. *)
Variable builtin_str : PyValue -> pystr.

(** [dateutil.parser.parse] *)
Variable parser_parse : PyValue -> result datetime.

(** [str(v)], also what ['{0}'.format(v)] gives.  An integer is written out
    whatever its length (no limit on the number of digits is set). *)
Definition py_str (v : PyValue) : pystr :=
  match v with
  | PyStr s => s
  | PyNone => str "None"
  | PyBool true => str "True"
  | PyBool false => str "False"
  | PyInt n => str (NilZero.string_of_int (Z.to_int n))
  | _ => builtin_str v
  end.

Definition callable0 : Type := unit -> result PyValue.
Definition callable1 : Type := PyValue -> result PyValue.

Inductive PropertyClass : Type :=
| class_Property
| class_ListProperty
| class_StringProperty
| class_TypeProperty
| class_IDProperty
| class_BooleanProperty
| class_TimestampProperty
| class_ReferenceProperty
| class_SelectorProperty.

(** What [ListProperty] keeps in [self.contained], by the three uses
    [validate] makes of it: [contained.validate(item)], [contained(valid)]
    and [contained( **valid)]. *)
Record Contained : Type := mk_Contained {
  contained_validate : callable1;
  contained_call : callable1;
  contained_call_kw : list (pystr * PyValue) -> result PyValue
}.

(** A property object: its class and the attributes set on the instance.
    [validate_attr] tells that [__init__] bound [self.validate] to
    [self._default_validate]; [clean_attr] and [default_attr] hold the
    functions assigned to [self.clean] and [self.default]. *)
Record Property : Type := mk_Property {
  class_of : PropertyClass;
  required : bool;
  type : option pystr;
  _fixed_value : option PyValue;
  validate_attr : bool;
  clean_attr : option callable1;
  default_attr : option callable0;
  contained : option Contained;
  required_prefix : option pystr
}.

(** A fresh instance of a class, before [__init__] runs. *)
Definition new_object (c : PropertyClass) : Property :=
  mk_Property c false None None false None None None None.

(** The keyword arguments of [Property.__init__], with their defaults. *)
Record kwargs : Type := mk_kwargs {
  kw_required : bool;
  kw_fixed : PyValue;
  kw_clean : option callable1;
  kw_default : option callable0;
  kw_type : option pystr
}.

Definition no_kwargs : kwargs := mk_kwargs false PyNone None None None.

(** [Property.__init__] *)
Definition Property___init__ (self : Property) (kw : kwargs) : Property :=
  let self :=
    mk_Property (class_of self) (kw_required kw) (kw_type kw) (_fixed_value self)
      (validate_attr self) (clean_attr self) (default_attr self)
      (contained self) (required_prefix self) in
  let self :=
    if py_truthy (kw_fixed kw) then
      mk_Property (class_of self) (required self) (type self) (Some (kw_fixed kw))
        true (clean_attr self) (Some (fun _ => Ok (kw_fixed kw)))
        (contained self) (required_prefix self)
    else self in
  let self :=
    match kw_clean kw with
    | Some clean =>
        mk_Property (class_of self) (required self) (type self) (_fixed_value self)
          (validate_attr self) (Some clean) (default_attr self)
          (contained self) (required_prefix self)
    | None => self
    end in
  match kw_default kw with
  | Some default =>
      mk_Property (class_of self) (required self) (type self) (_fixed_value self)
        (validate_attr self) (clean_attr self) (Some default)
        (contained self) (required_prefix self)
  | None => self
  end.

(** [Property._default_validate] *)
Definition Property__default_validate (self : Property) (value : PyValue)
  : result PyValue :=
  match _fixed_value self with
  | None => Raise AttributeError
  | Some fixed =>
      if negb (py_eq value fixed) then
        Raise (ValueError (str "must equal '" ++ py_str fixed ++ str "'."))
      else Ok value
  end.

(** [Property.clean] *)
Definition Property_clean (self : Property) (value : PyValue) : result PyValue :=
  Raise NotImplementedError.

(** [Property.__call__]: the value when it is not [None], and [None]
    otherwise. *)
Definition Property___call__ (self : Property) (value : PyValue) : result PyValue :=
  Ok value.

(** [self( **kw)] on a property: [value] is its one keyword. *)
Definition Property___call___kw (self : Property) (kw : list (pystr * PyValue))
  : result PyValue :=
  match kw with
  | [] => Property___call__ self PyNone
  | [(k, v)] => if pystr_eqb k (str "value") then Property___call__ self v
                else Raise TypeError
  | _ => Raise TypeError
  end.

(** [StringProperty.clean]: [self.string_type] is [str]. *)
Definition StringProperty_clean (self : Property) (value : PyValue)
  : result PyValue :=
  Ok (PyStr (py_str value)).

(** [BooleanProperty.clean] *)
Definition BooleanProperty_clean (self : Property) (value : PyValue)
  : result PyValue :=
  match value with
  | PyBool _ => Ok value
  | _ =>
      let trues := [str "true"; str "t"] in
      let falses := [str "false"; str "f"] in
      let coercion_error := Raise (ValueError (str "not a coercible boolean value.")) in
      match method_lower value with
      | Ok lowered =>
          if existsb (pystr_eqb lowered) trues then Ok (PyBool true)
          else if existsb (pystr_eqb lowered) falses then Ok (PyBool false)
          else coercion_error
      | Raise AttributeError =>
          if py_eq value (PyInt 1) then Ok (PyBool true)
          else if py_eq value (PyInt 0) then Ok (PyBool false)
          else coercion_error
      | Raise e => Raise e
      end
  end.

(** [self.clean(value)]: the instance's attribute when [__init__] set one,
    the method of the class otherwise. *)
Definition clean (self : Property) (value : PyValue) : result PyValue :=
  match clean_attr self with
  | Some f => f value
  | None =>
      match class_of self with
      | class_StringProperty => StringProperty_clean self value
      | class_BooleanProperty => BooleanProperty_clean self value
      | _ => Property_clean self value
      end
  end.

(** [Property.validate] *)
Definition Property_validate (self : Property) (value : PyValue) : result PyValue :=
  match clean self value with
  | Ok cleaned => Ok cleaned
  | Raise NotImplementedError => Ok value
  | Raise e => Raise e
  end.

(** [StringProperty.validate] *)
Definition StringProperty_validate (self : Property) (value : PyValue)
  : result PyValue :=
  clean self value.

(** [BooleanProperty.validate] *)
Definition BooleanProperty_validate (self : Property) (value : PyValue)
  : result PyValue :=
  match clean self value with
  | Raise (ValueError _) => Raise (ValueError (str "must be a boolean value."))
  | r => r
  end.

(** [IDProperty.validate] *)
Definition IDProperty_validate (self : Property) (value : PyValue)
  : result PyValue :=
  match required_prefix self with
  | None => Raise AttributeError
  | Some prefix =>
      starts <- method_startswith value prefix ;;
      if negb starts then
        Raise (ValueError (str "must start with '" ++ prefix ++ str "'."))
      else
        let parsed :=
          match value with
          | PyStr s =>
              match nth_error (split1 (str "--") s) 1 with
              | Some suffix => UUID_of_hex suffix (Some 4%Z)
              | None => Raise IndexError
              end
          | _ => Raise AttributeError
          end in
        match parsed with
        | Ok _ => Ok value
        | Raise _ =>
            Raise (ValueError (str "must have a valid version 4 UUID after the prefix."))
        end
  end.

(** [IDProperty.default], from the bytes its call of [os.urandom] reads. *)
Definition IDProperty_default (self : Property) (urandom : list byte)
  : result PyValue :=
  match required_prefix self with
  | None => Raise AttributeError
  | Some prefix =>
      u <- uuid4 urandom ;;
      Ok (PyStr (prefix ++ UUID___str__ u))
  end.

(** [TimestampProperty.validate] *)
Definition TimestampProperty_validate (self : Property) (value : PyValue)
  : result PyValue :=
  match value with
  | PyDateTime _ => Ok value
  | PyDate d => Ok (PyDateTime (datetime_combine d dt_time_midnight pytz_US_Eastern))
  | _ =>
      match parser_parse value with
      | Raise TypeError =>
          Raise (ValueError (str "must be a datetime object, date object, or timestamp string in a recognizable format."))
      | Raise e => Raise e
      | Ok parsed =>
          match dt_tzinfo parsed with
          | Some _ => utc <- astimezone parsed pytz_utc ;; Ok (PyDateTime utc)
          | None => utc <- pytz_utc_localize parsed ;; Ok (PyDateTime utc)
          end
      end
  end.

(** [ReferenceProperty.validate] *)
Definition ReferenceProperty_validate (self : Property) (value : PyValue)
  : result PyValue :=
  value <- match value with
           | PyStix props => attr_id props
           | _ => Ok value
           end ;;
  checked <- match type self with
             | Some (c :: t) =>
                 starts <- method_startswith value (c :: t) ;;
                 if negb starts then
                   Raise (ValueError (str "must start with '" ++ (c :: t) ++ str "'."))
                 else Ok tt
             | _ => Ok tt
             end ;;
  found <- regex_match REF_REGEX value ;;
  if negb found then Raise (ValueError (str "must match <object-type>--<guid>."))
  else Ok value.

(** [SelectorProperty.validate] *)
Definition SelectorProperty_validate (self : Property) (value : PyValue)
  : result PyValue :=
  found <- regex_match SELECTOR_REGEX value ;;
  if negb found then Raise (ValueError (str "values must adhere to selector syntax"))
  else Ok value.

(** The loop of [ListProperty.validate]. *)
Fixpoint ListProperty_validate_items (c : Contained) (items : list PyValue)
  : result (list PyValue) :=
  match items with
  | [] => Ok []
  | item :: rest =>
      valid <- match contained_validate c item with
               | Raise AttributeError => Ok item
               | r => r
               end ;;
      wrapped <- match valid with
                 | PyDict kw => contained_call_kw c kw
                 | _ => contained_call c valid
                 end ;;
      result <- ListProperty_validate_items c rest ;;
      Ok (wrapped :: result)
  end.

(** [ListProperty.validate] *)
Definition ListProperty_validate (self : Property) (value : PyValue)
  : result PyValue :=
  match py_iter value with
  | None => Raise (ValueError (str "must be an iterable."))
  | Some items =>
      match contained self with
      | None => Raise AttributeError
      | Some c =>
          result <- ListProperty_validate_items c items ;;
          if (List.length result <? 1)%nat then
            Raise (ValueError (str "must not be empty."))
          else Ok (PyList result)
      end
  end.

(** [self.validate(value)]: [_default_validate] when [__init__] rebound the
    attribute, the method of the class otherwise. *)
Definition validate (self : Property) (value : PyValue) : result PyValue :=
  if validate_attr self then Property__default_validate self value
  else
    match class_of self with
    | class_Property | class_TypeProperty => Property_validate self value
    | class_ListProperty => ListProperty_validate self value
    | class_StringProperty => StringProperty_validate self value
    | class_IDProperty => IDProperty_validate self value
    | class_BooleanProperty => BooleanProperty_validate self value
    | class_TimestampProperty => TimestampProperty_validate self value
    | class_ReferenceProperty => ReferenceProperty_validate self value
    | class_SelectorProperty => SelectorProperty_validate self value
    end.

(** [self.default()]; [urandom] is what [os.urandom(16)] returns if the
    call reads it. *)
Definition default (self : Property) (urandom : list byte) : result PyValue :=
  match default_attr self with
  | Some f => f tt
  | None =>
      match class_of self with
      | class_IDProperty => IDProperty_default self urandom
      | _ => Raise AttributeError
      end
  end.

(** *** Constructors *)

(** [Property( **kw)] *)
Definition new_Property (kw : kwargs) : Property :=
  Property___init__ (new_object class_Property) kw.

(** [StringProperty( **kw)] *)
Definition StringProperty (kw : kwargs) : Property :=
  Property___init__ (new_object class_StringProperty) kw.

(** [BooleanProperty( **kw)] *)
Definition BooleanProperty (kw : kwargs) : Property :=
  Property___init__ (new_object class_BooleanProperty) kw.

(** [TimestampProperty( **kw)] *)
Definition TimestampProperty (kw : kwargs) : Property :=
  Property___init__ (new_object class_TimestampProperty) kw.

(** [TypeProperty(type)] *)
Definition TypeProperty (type : pystr) : Property :=
  Property___init__ (new_object class_TypeProperty)
    (mk_kwargs false (PyStr type) None None None).

(** [IDProperty(type)] *)
Definition IDProperty (type : pystr) : Property :=
  let self :=
    mk_Property class_IDProperty false None None false None None None
      (Some (type ++ str "--")) in
  Property___init__ self no_kwargs.

(** [ReferenceProperty(required, type)] *)
Definition ReferenceProperty (required : bool) (type : option pystr) : Property :=
  let self :=
    mk_Property class_ReferenceProperty false type None false None None None None in
  Property___init__ self (mk_kwargs required PyNone None None type).

(** [SelectorProperty(type)]: the argument is ignored. *)
Definition SelectorProperty (type : option pystr) : Property :=
  Property___init__ (new_object class_SelectorProperty) no_kwargs.

(** [str( **kw)]: the keywords of [str] are [object], [encoding] and
    [errors]; the last two ask for the decoding of a bytes object. *)
Definition str_kw (kw : list (pystr * PyValue)) : result PyValue :=
  let known k :=
    existsb (pystr_eqb k) [str "object"; str "encoding"; str "errors"] in
  let is_str_or_absent k :=
    match lookup k kw with
    | None | Some (PyStr _) => true
    | _ => false
    end in
  if negb (forallb (fun kv => known (fst kv)) kw
           && is_str_or_absent (str "encoding") && is_str_or_absent (str "errors"))
  then Raise TypeError
  else
    match lookup (str "object") kw with
    | None => Ok (PyStr [])
    | Some v =>
        match lookup (str "encoding") kw, lookup (str "errors") kw with
        | None, None => Ok (PyStr (py_str v))
        | _, _ => Raise TypeError
        end
    end.

(** [self.contained] when it is the type [str]: a type has no [validate]. *)
Definition contained_str : Contained :=
  mk_Contained (fun _ => Raise AttributeError)
    (fun v => Ok (PyStr (py_str v))) str_kw.

(** [self.contained] when it is the type [bool], which takes no keyword. *)
Definition contained_bool : Contained :=
  mk_Contained (fun _ => Raise AttributeError)
    (fun v => Ok (PyBool (py_truthy v)))
    (fun kw => match kw with
               | [] => Ok (PyBool false)
               | _ => Raise TypeError
               end).

(** [self.contained] when it is a property object. *)
Definition contained_instance (p : Property) : Contained :=
  mk_Contained (validate p) (Property___call__ p) (Property___call___kw p).

(** The [contained] argument of [ListProperty]: a property class, a property
    object, or any other object. *)
Inductive ContainedArg : Type :=
| ArgClass (c : PropertyClass)
| ArgInstance (p : Property)
| ArgOther (c : Contained).

(** [contained()] for a property class: [ListProperty], [TypeProperty] and
    [IDProperty] need an argument. *)
Definition instantiate (c : PropertyClass) : result Property :=
  match c with
  | class_Property => Ok (new_Property no_kwargs)
  | class_StringProperty => Ok (StringProperty no_kwargs)
  | class_BooleanProperty => Ok (BooleanProperty no_kwargs)
  | class_TimestampProperty => Ok (TimestampProperty no_kwargs)
  | class_ReferenceProperty => Ok (ReferenceProperty false None)
  | class_SelectorProperty => Ok (SelectorProperty None)
  | class_ListProperty | class_TypeProperty | class_IDProperty => Raise TypeError
  end.

(** [ListProperty(contained, **kw)] *)
Definition ListProperty (arg : ContainedArg) (kw : kwargs) : result Property :=
  c <- match arg with
       | ArgClass class_StringProperty => Ok contained_str
       | ArgClass class_BooleanProperty => Ok contained_bool
       | ArgClass c => p <- instantiate c ;; Ok (contained_instance p)
       | ArgInstance p => Ok (contained_instance p)
       | ArgOther c => Ok c
       end ;;
  let self :=
    mk_Property class_ListProperty false None None false None None (Some c) None in
  Ok (Property___init__ self kw).

(** [p.validate(value)] for a property whose construction may have failed. *)
Definition validate_of (p : result Property) (value : PyValue) : result PyValue :=
  self <- p ;; validate self value.

End Properties.

(** ** What the patterns stand for *)

(** [k] words of [L] in a row. *)
Fixpoint power (L : pystr -> Prop) (k : nat) (s : pystr) : Prop :=
  match k with
  | O => s = []
  | S k' => exists s1 s2, s = s1 ++ s2 /\ L s1 /\ power L k' s2
  end.

(** The strings a pattern stands for. *)
Fixpoint lang (r : regex) (s : pystr) : Prop :=
  match r with
  | Nothing => False
  | Empty => s = []
  | Set_ p => exists c, s = [c] /\ p c = true
  | Cat r1 r2 => exists s1 s2, s = s1 ++ s2 /\ lang r1 s1 /\ lang r2 s2
  | Alt r1 r2 => lang r1 s \/ lang r2 s
  | Repeat lo hi r' =>
      exists k, (lo <= k)%nat /\ within k hi = true /\ power (lang r') k s
  end.

(** *** The selector grammar, in the words of the specification *)

(** Between [lo] and [hi] characters, all of the set [p]. *)
Definition chars_of (p : ascii -> bool) (lo hi : nat) (g : pystr) : Prop :=
  (lo <= List.length g <= hi)%nat /\ forallb p g = true.

(** A root segment: 3 to 250 characters of [[a-z0-9_-]]. *)
Definition root_segment (g : pystr) : Prop := chars_of selector_char 3 250 g.

(** A token: 1 to 250 characters of [[a-z0-9_-]]. *)
Definition token_segment (g : pystr) : Prop := chars_of selector_char 1 250 g.

(** A bracketed index: one or more digits between [[] and []]. *)
Definition index_segment (g : pystr) : Prop :=
  exists digits,
    g = "["%char :: digits ++ ["]"%char]
    /\ (1 <= List.length digits)%nat /\ forallb is_digit digits = true.

(** A root segment, then any number of segments, each after a dot. *)
Definition selector_syntax (s : pystr) : Prop :=
  exists root segments,
    s = root ++ List.concat (map (fun g => "."%char :: g) segments)
    /\ root_segment root
    /\ Forall (fun g => index_segment g \/ token_segment g) segments.

Definition ends_with_newline (s : pystr) : bool :=
  match rev s with
  | c :: _ => Ascii.eqb c newline
  | [] => false
  end.

(** ** Substrings *)

(** [sub in s] *)
Fixpoint contains (sub s : pystr) : bool :=
  startswith s sub
  || match s with
     | [] => false
     | _ :: s' => contains sub s'
     end.

(** The characters of a UUID in its usual writing. *)
Definition hex_or_hyphen (c : ascii) : bool := is_hex c || Ascii.eqb c "-".

(** ** Sample parameters for the concrete runs *)

(** A string conversion that names no value. *)
Definition sample_str : PyValue -> pystr := fun _ => str "<object>".

(** Two timestamps as [dateutil] reads them: one with an offset of two
    hours, one without a zone.  Other strings are not recognised, and other
    values are not strings. *)
Definition sample_parse (v : PyValue) : result datetime :=
  match v with
  | PyStr s =>
      if pystr_eqb s (str "2017-01-01T01:30:00+02:00") then
        Ok (mk_datetime (mk_date 2017 1 1) (mk_time 1 30 0 0)
              (Some (mk_tzinfo (str "tzoffset(None, 7200)") 7200)))
      else if pystr_eqb s (str "2017-01-01 12:00:00") then
        Ok (mk_datetime (mk_date 2017 1 1) (mk_time 12 0 0 0) None)
      else Raise (ValueError (str "Unknown string format"))
  | _ => Raise TypeError
  end.

(** A datetime without a zone: [datetime(2017, 1, 1, 12, 0)]. *)
Definition naive_noon : datetime :=
  mk_datetime (mk_date 2017 1 1) (mk_time 12 0 0 0) None.

(** What [os.urandom(16)] may return. *)
Definition sample_urandom : list byte := repeat Byte.xab 16.

(** A version-4 and a version-1 UUID in their usual writing. *)
Definition uuid_v4_text : pystr := str "00000000-0000-4000-8000-000000000000".
Definition uuid_v1_text : pystr := str "00000000-0000-1000-8000-000000000000".

(** * Properties of the embedding *)

(** ** Sanity checks of the library functions *)

Example ymd2ord_epoch : _ymd2ord (mk_date 1970 1 1) = 719163%Z.
Proof. reflexivity. Qed.

Example ord2ymd_leap_day :
  _ord2ymd (_ymd2ord (mk_date 2016 2 29)) = mk_date 2016 2 29.
Proof. reflexivity. Qed.

Example ord2ymd_year_end :
  _ord2ymd (_ymd2ord (mk_date 2000 12 31)) = mk_date 2000 12 31.
Proof. reflexivity. Qed.

Example ord2ymd_max : _ord2ymd _MAXORDINAL = mk_date 9999 12 31.
Proof. reflexivity. Qed.

Example eq_float_int : py_eq (PyFloat 1.0) (PyInt 1) = true.
Proof. reflexivity. Qed.

Example eq_neg_zero : py_eq (PyFloat (-0.0)) (PyInt 0) = true.
Proof. reflexivity. Qed.

Example eq_half : py_eq (PyFloat 0.5) (PyInt 0) = false.
Proof. reflexivity. Qed.

Example eq_str_int : py_eq (PyStr (str "1")) (PyInt 1) = false.
Proof. reflexivity. Qed.

Example eq_object_dict :
  py_eq (PyStix [(str "a", PyInt 1)]) (PyDict [(str "a", PyInt 1)]) = true
  /\ py_eq (PyDict [(str "a", PyInt 1)]) (PyStix [(str "a", PyFloat 1.0)]) = true
  /\ py_eq (PyStix [(str "a", PyInt 1)]) (PyDict []) = false.
Proof. repeat split. Qed.

Example lower_latin_1 :
  py_lower [ascii_of_nat 192; "A"%char; ascii_of_nat 215; ascii_of_nat 223; "z"%char]
  = [ascii_of_nat 224; "a"%char; ascii_of_nat 215; ascii_of_nat 223; "z"%char].
Proof. reflexivity. Qed.

Example int16_white_space :
  int16 (ascii_of_nat 28 :: str "ff") = Raise invalid_literal
  /\ int16 (ascii_of_nat 12 :: str "ff") = Ok 255%Z
  /\ int16 (ascii_of_nat 133 :: str "ff") = Ok 255%Z.
Proof. repeat split. Qed.

Example int16_forms :
  int16 (str " +0x_1f_f ") = Ok 511%Z /\ int16 (str "-ff") = Ok (-255)%Z
  /\ int16 (str "1__f") = Raise invalid_literal
  /\ int16 (str "0x") = Raise invalid_literal.
Proof. repeat split. Qed.

Example uuid_str_of_bytes :
  bind (uuid4 sample_urandom) (fun n => Ok (UUID___str__ n))
  = Ok (str "abababab-abab-4bab-abab-abababababab").
Proof. vm_compute. reflexivity. Qed.

(** ** Strings *)

(** Case analysis on the condition of a conditional of the goal. *)
Ltac case_if :=
  match goal with
  | |- context [if ?c then _ else _] => destruct c
  end.

Lemma ascii_eqb_refl (c : ascii) : Ascii.eqb c c = true.
Proof. apply Ascii.eqb_eq. reflexivity. Qed.

Lemma pystr_eqb_eq (a b : pystr) : pystr_eqb a b = true <-> a = b.
Proof.
  revert b. induction a as [|c a IH]; intros [|d b]; simpl; split;
    try congruence; try reflexivity.
  - intros H. apply andb_true_iff in H as [Hc Hs].
    apply Ascii.eqb_eq in Hc. apply IH in Hs. congruence.
  - intros H. injection H as -> ->. rewrite ascii_eqb_refl. simpl.
    apply IH. reflexivity.
Qed.

Lemma lower_lower_char (c : ascii) : lower_char (lower_char c) = lower_char c.
Proof.
  destruct c as [b0 b1 b2 b3 b4 b5 b6 b7].
  destruct b0, b1, b2, b3, b4, b5, b6, b7; reflexivity.
Qed.

Lemma py_lower_idem (s : pystr) : py_lower (py_lower s) = py_lower s.
Proof.
  unfold py_lower. rewrite map_map. apply map_ext. apply lower_lower_char.
Qed.

Lemma tzinfo_eqb_eq (a b : tzinfo) : tzinfo_eqb a b = true -> a = b.
Proof.
  destruct a as [za oa], b as [zb ob]. unfold tzinfo_eqb. simpl.
  intros H. apply andb_true_iff in H as [Hz Ho].
  apply pystr_eqb_eq in Hz. apply Z.eqb_eq in Ho. congruence.
Qed.

(** ** The scalar kinds and the fixed value *)

Section ScalarKinds.

Variable builtin_str : PyValue -> pystr.
Variable parser_parse : PyValue -> result datetime.

Local Notation "'must_be_boolean'" :=
  (Raise (ValueError (str "must be a boolean value."))).

Lemma BooleanProperty_validate_str (s : pystr) :
  validate builtin_str parser_parse (BooleanProperty no_kwargs) (PyStr s)
  = if pystr_eqb (py_lower s) (str "true") || pystr_eqb (py_lower s) (str "t")
    then Ok (PyBool true)
    else if pystr_eqb (py_lower s) (str "false") || pystr_eqb (py_lower s) (str "f")
         then Ok (PyBool false)
         else must_be_boolean.
Proof.
  unfold validate, BooleanProperty_validate, clean, BooleanProperty_clean.
  cbn -[pystr_eqb str]. rewrite !orb_false_r.
  repeat case_if; reflexivity.
Qed.

Lemma BooleanProperty_validate_number (x : PyValue) :
  match x with
  | PyBool _ | PyStr _ | PyStix _ => True
  | _ =>
      validate builtin_str parser_parse (BooleanProperty no_kwargs) x
      = if py_eq x (PyInt 1) then Ok (PyBool true)
        else if py_eq x (PyInt 0) then Ok (PyBool false)
        else must_be_boolean
  end.
Proof.
  unfold validate, BooleanProperty_validate, clean, BooleanProperty_clean.
  destruct x; simpl; try exact I; repeat case_if; reflexivity.
Qed.

Lemma BooleanProperty_validate_object (props : list (pystr * PyValue)) :
  validate builtin_str parser_parse (BooleanProperty no_kwargs) (PyStix props)
  = Raise TypeError.
Proof. reflexivity. Qed.

(** C9, at the input where the code leaves it: on a STIX object
    [BooleanProperty().validate] raises the [TypeError] of the call of the
    object's [lower] attribute, which [clean] does not catch and [validate]
    does not replace by "must be a boolean value.".  On every other value
    the outcome is as C9 says.  [validate] gives [True] on [True], ["true"],
    ["T"] and [1], and [False] on [False], ["false"], ["f"] and [0].  A
    string is read through [lower()], so the case of its letters does not
    matter: it is accepted exactly when its lower-case form is "true" or
    "t" (giving [True]) or "false" or "f" (giving [False]), and every other
    string, as "maybe", fails with "must be a boolean value." where [clean]
    says "not a coercible boolean value.".  A value that is neither a
    [bool], a string nor a STIX object is accepted exactly when it equals
    [1] or [0] and fails with the same message otherwise. *)
Theorem BooleanProperty_validate_coerces :
  (validate builtin_str parser_parse (BooleanProperty no_kwargs) (PyBool true) = Ok (PyBool true)
   /\ validate builtin_str parser_parse (BooleanProperty no_kwargs) (PyStr (str "true")) = Ok (PyBool true)
   /\ validate builtin_str parser_parse (BooleanProperty no_kwargs) (PyStr (str "T")) = Ok (PyBool true)
   /\ validate builtin_str parser_parse (BooleanProperty no_kwargs) (PyInt 1) = Ok (PyBool true))
  /\ (validate builtin_str parser_parse (BooleanProperty no_kwargs) (PyBool false) = Ok (PyBool false)
      /\ validate builtin_str parser_parse (BooleanProperty no_kwargs) (PyStr (str "false")) = Ok (PyBool false)
      /\ validate builtin_str parser_parse (BooleanProperty no_kwargs) (PyStr (str "f")) = Ok (PyBool false)
      /\ validate builtin_str parser_parse (BooleanProperty no_kwargs) (PyInt 0) = Ok (PyBool false))
  /\ (forall s : pystr,
         validate builtin_str parser_parse (BooleanProperty no_kwargs) (PyStr (py_lower s))
         = validate builtin_str parser_parse (BooleanProperty no_kwargs) (PyStr s))
  /\ (clean builtin_str (BooleanProperty no_kwargs) (PyStr (str "maybe"))
      = Raise (ValueError (str "not a coercible boolean value."))
      /\ validate builtin_str parser_parse (BooleanProperty no_kwargs) (PyStr (str "maybe")) = must_be_boolean)
  /\ (forall x : PyValue,
         validate builtin_str parser_parse (BooleanProperty no_kwargs) x
         = match x with
           | PyBool b => Ok (PyBool b)
           | PyStr s =>
               if pystr_eqb (py_lower s) (str "true") || pystr_eqb (py_lower s) (str "t")
               then Ok (PyBool true)
               else if pystr_eqb (py_lower s) (str "false") || pystr_eqb (py_lower s) (str "f")
                    then Ok (PyBool false)
                    else must_be_boolean
           | PyStix _ => Raise TypeError
           | _ =>
               if py_eq x (PyInt 1) then Ok (PyBool true)
               else if py_eq x (PyInt 0) then Ok (PyBool false)
               else must_be_boolean
           end)
  /\ (forall x : PyValue,
         match clean builtin_str (BooleanProperty no_kwargs) x with
         | Raise (ValueError _) =>
             validate builtin_str parser_parse (BooleanProperty no_kwargs) x = must_be_boolean
         | r => validate builtin_str parser_parse (BooleanProperty no_kwargs) x = r
         end).
Proof.
  split; [repeat split|]. split; [repeat split|]. split; [|split; [|split]].
  - intros s. rewrite !BooleanProperty_validate_str.
    rewrite py_lower_idem. reflexivity.
  - split; reflexivity.
  - intros x.
    destruct x;
      try apply BooleanProperty_validate_str;
      try apply BooleanProperty_validate_object;
      try reflexivity;
      match goal with
      | |- context [validate _ _ _ ?v] => exact (BooleanProperty_validate_number v)
      end.
  - intros x. unfold validate, BooleanProperty_validate. simpl.
    destruct (clean builtin_str (BooleanProperty no_kwargs) x) as [b|[m| | | | |]];
      reflexivity.
Qed.

(** C10: [BooleanProperty] takes a number by what it equals, not by its
    type: whatever is neither a [bool], a string nor a STIX object has no
    [lower] attribute and is [True] when it equals [1] and [False] when it
    equals [0], so the floats [1.0] and [0.0] are accepted; the strings
    ["1"] and ["0"] have a [lower] method, never reach that comparison and
    are rejected. *)
Theorem BooleanProperty_numbers_by_equality :
  (validate builtin_str parser_parse (BooleanProperty no_kwargs) (PyStr (str "1")) = must_be_boolean
   /\ validate builtin_str parser_parse (BooleanProperty no_kwargs) (PyStr (str "0")) = must_be_boolean
   /\ clean builtin_str (BooleanProperty no_kwargs) (PyStr (str "1"))
      = Raise (ValueError (str "not a coercible boolean value.")))
  /\ (validate builtin_str parser_parse (BooleanProperty no_kwargs) (PyFloat 1.0) = Ok (PyBool true)
      /\ validate builtin_str parser_parse (BooleanProperty no_kwargs) (PyFloat 0.0) = Ok (PyBool false)
      /\ validate builtin_str parser_parse (BooleanProperty no_kwargs) (PyFloat 0.5) = must_be_boolean)
  /\ (forall x : PyValue,
         match x with
         | PyBool _ | PyStr _ | PyStix _ => True
         | _ =>
             validate builtin_str parser_parse (BooleanProperty no_kwargs) x
             = if py_eq x (PyInt 1) then Ok (PyBool true)
               else if py_eq x (PyInt 0) then Ok (PyBool false)
               else must_be_boolean
         end).
Proof.
  split; [repeat split|]. split; [repeat split|].
  exact BooleanProperty_validate_number.
Qed.

(** C6: on a date without a time, [TimestampProperty().validate] returns
    the datetime of that day at midnight with the zone [US/Eastern]
    attached, which is not UTC; the value is aware. *)
Theorem TimestampProperty_date_only (d : date) :
  validate builtin_str parser_parse (TimestampProperty no_kwargs) (PyDate d)
  = Ok (PyDateTime (mk_datetime d (mk_time 0 0 0 0) (Some pytz_US_Eastern)))
  /\ zone pytz_US_Eastern = str "US/Eastern"
  /\ tzinfo_eqb pytz_US_Eastern pytz_utc = false.
Proof.
  split; [|split].
  - unfold validate. simpl. unfold TimestampProperty_validate, datetime_combine.
    reflexivity.
  - reflexivity.
  - reflexivity.
Qed.

Lemma TimestampProperty_validate_utc (self : Property) (v r : PyValue) :
  isinstance_date v = false ->
  TimestampProperty_validate parser_parse self v = Ok r ->
  exists d, r = PyDateTime d /\ dt_tzinfo d = Some pytz_utc.
Proof.
  intros Hv H. unfold TimestampProperty_validate in H.
  assert (Hp : match parser_parse v with
               | Ok parsed =>
                   match dt_tzinfo parsed with
                   | Some _ => utc <- astimezone parsed pytz_utc ;; Ok (PyDateTime utc)
                   | None => utc <- pytz_utc_localize parsed ;; Ok (PyDateTime utc)
                   end
               | Raise TypeError =>
                   Raise (ValueError (str "must be a datetime object, date object, or timestamp string in a recognizable format."))
               | Raise e => Raise e
               end = Ok r).
  { destruct v; simpl in Hv; try discriminate; exact H. }
  clear H. destruct (parser_parse v) as [parsed|e].
  - destruct (dt_tzinfo parsed) as [mytz|] eqn:Htz.
    + unfold astimezone in Hp. rewrite Htz in Hp.
      destruct (tzinfo_eqb pytz_utc mytz) eqn:Heq.
      * simpl in Hp. injection Hp as <-. exists parsed. split; [reflexivity|].
        apply tzinfo_eqb_eq in Heq. congruence.
      * destruct (datetime_sub_seconds parsed (utcoffset mytz)) as [utc|e];
          simpl in Hp; [|discriminate].
        injection Hp as <-. eexists. split; reflexivity.
    + unfold pytz_utc_localize in Hp. rewrite Htz in Hp. simpl in Hp.
      injection Hp as <-. eexists. split; reflexivity.
  - destruct e; discriminate.
Qed.

(** *** The fixed value *)

(** C2, where the code leaves it: [Property(fixed="a", default=lambda: "b")]
    has "b" for its default, a value its own [validate] refuses with "must
    equal 'a'."; only "a" validates.  Without the [default] argument the
    default is "a", and a [clean] passed along with [fixed] changes nothing
    to [validate].  And the empty string as fixed value, which is not
    [None], rewires nothing: every value validates and there is no
    default. *)
Theorem fixed_default_is_bypassed (urandom : list byte) :
  (default
     (new_Property (mk_kwargs false (PyStr (str "a")) None
                      (Some (fun _ => Ok (PyStr (str "b")))) None)) urandom
   = Ok (PyStr (str "b"))
   /\ validate builtin_str parser_parse
        (new_Property (mk_kwargs false (PyStr (str "a")) None
                         (Some (fun _ => Ok (PyStr (str "b")))) None))
        (PyStr (str "b"))
      = Raise (ValueError (str "must equal 'a'."))
   /\ validate builtin_str parser_parse
        (new_Property (mk_kwargs false (PyStr (str "a")) None
                         (Some (fun _ => Ok (PyStr (str "b")))) None))
        (PyStr (str "a"))
      = Ok (PyStr (str "a")))
  /\ (default (new_Property (mk_kwargs false (PyStr (str "a")) None None None)) urandom
      = Ok (PyStr (str "a"))
      /\ validate builtin_str parser_parse
           (StringProperty
              (mk_kwargs false (PyStr (str "a")) (Some (fun _ => Ok (PyStr (str "z"))))
                 None None))
           (PyStr (str "b"))
         = Raise (ValueError (str "must equal 'a'.")))
  /\ (validate builtin_str parser_parse
        (new_Property (mk_kwargs false (PyStr []) None None None))
        (PyStr (str "b"))
      = Ok (PyStr (str "b"))
      /\ default (new_Property (mk_kwargs false (PyStr []) None None None)) urandom
         = Raise AttributeError).
Proof. repeat split. Qed.

End ScalarKinds.

(** ** Lists *)

Section Lists.

Variable builtin_str : PyValue -> pystr.
Variable parser_parse : PyValue -> result datetime.

Lemma ListProperty_validate_nonempty (self : Property) (value : PyValue) :
  match ListProperty_validate self value with
  | Ok (PyList result) => (1 <= List.length result)%nat
  | Ok _ => False
  | Raise _ => True
  end.
Proof.
  unfold ListProperty_validate.
  destruct (py_iter value) as [items|]; [|exact I].
  destruct (contained self) as [c|]; [|exact I].
  destruct (ListProperty_validate_items c items) as [result|e]; simpl; [|exact I].
  destruct (List.length result <? 1)%nat eqn:Hlen; [exact I|].
  apply Nat.ltb_ge in Hlen. exact Hlen.
Qed.

(** C8: [ListProperty.validate] never returns an empty list: what it
    returns is a list of at least one element; when the input yields no
    validated element, as the empty list does, it fails with "must not be
    empty."; and [ListProperty(StringProperty).validate(["a", "b"])] is
    [["a", "b"]]. *)
Theorem ListProperty_validate_never_empty :
  (forall (self : Property) (value : PyValue),
      match ListProperty_validate self value with
      | Ok (PyList result) => (1 <= List.length result)%nat
      | Ok _ => False
      | Raise _ => True
      end)
  /\ (forall (self : Property) (c : Contained) (value : PyValue) (items : list PyValue),
         contained self = Some c ->
         py_iter value = Some items ->
         ListProperty_validate_items c items = Ok [] ->
         ListProperty_validate self value
         = Raise (ValueError (str "must not be empty.")))
  /\ validate_of builtin_str parser_parse
       (ListProperty builtin_str parser_parse (ArgClass class_StringProperty) no_kwargs)
       (PyList [])
     = Raise (ValueError (str "must not be empty."))
  /\ validate_of builtin_str parser_parse
       (ListProperty builtin_str parser_parse (ArgClass class_StringProperty) no_kwargs)
       (PyList [PyStr (str "a"); PyStr (str "b")])
     = Ok (PyList [PyStr (str "a"); PyStr (str "b")]).
Proof.
  split; [exact ListProperty_validate_nonempty|].
  split; [|split; reflexivity].
  intros self c value items Hc Hiter Hitems.
  unfold ListProperty_validate. rewrite Hiter, Hc, Hitems. reflexivity.
Qed.

End Lists.

(** ** Regular expressions: the matcher and the language *)

Lemma lang_cat (r1 r2 : regex) (s : pystr) :
  lang (cat r1 r2) s <-> lang (Cat r1 r2) s.
Proof.
  destruct r1; destruct r2; simpl; try tauto;
    try (split; [intros [] | intros (s1 & s2 & _ & H1 & H2); tauto]);
    try (split; [intros H; exists [], s; repeat split; exact H
                | intros (s1 & s2 & -> & -> & H); exact H]).
Qed.

Lemma lang_alt (r1 r2 : regex) (s : pystr) :
  lang (alt r1 r2) s <-> lang (Alt r1 r2) s.
Proof. destruct r1; destruct r2; simpl; tauto. Qed.

Lemma within_mono (k k' : nat) (hi : option nat) :
  (k <= k')%nat -> within k' hi = true -> within k hi = true.
Proof.
  destruct hi as [h|]; simpl; [|reflexivity].
  intros Hk H. apply Nat.leb_le in H. apply Nat.leb_le. lia.
Qed.

Lemma within_pred (k : nat) (hi : option nat) :
  within (S k) hi = true <-> within k (pred_bound hi) = true /\ within 1 hi = true.
Proof.
  destruct hi as [h|]; simpl; [|tauto].
  rewrite !Nat.leb_le. destruct h; simpl; [|rewrite Nat.leb_le]; lia.
Qed.

Lemma power_nil (L : pystr -> Prop) (k : nat) : L [] -> power L k [].
Proof.
  intros HL. induction k as [|k IH]; simpl; [reflexivity|].
  exists [], []. repeat split; assumption.
Qed.

Lemma power_nil_inv (L : pystr -> Prop) (k : nat) :
  power L (S k) [] -> L [].
Proof.
  simpl. intros (s1 & s2 & Hs & H1 & _).
  symmetry in Hs. apply app_eq_nil in Hs as [-> _]. exact H1.
Qed.

Lemma power_cons (L : pystr -> Prop) (k : nat) (c : ascii) (s : pystr) :
  power L k (c :: s) ->
  exists s1 s2, s = s1 ++ s2 /\ L (c :: s1) /\ power L (Nat.pred k) s2.
Proof.
  induction k as [|k IH]; simpl; [discriminate|].
  intros (t1 & t2 & Hs & H1 & H2). destruct t1 as [|d t1]; simpl in Hs.
  - subst t2. destruct k as [|k]; [discriminate H2|].
    destruct (IH H2) as (s1 & s2 & -> & Hc & Hp).
    exists s1, s2. repeat split; [exact Hc|].
    simpl in *. exists [], s2. repeat split; assumption.
  - injection Hs as <- ->. exists t1, t2. repeat split; assumption.
Qed.

Lemma nullable_spec (r : regex) : nullable r = true <-> lang r [].
Proof.
  induction r as [| |p|r1 IH1 r2 IH2|r1 IH1 r2 IH2|lo hi r IH]; simpl.
  - split; [discriminate|tauto].
  - tauto.
  - split; [discriminate|]. intros (c & H & _). discriminate.
  - rewrite andb_true_iff, IH1, IH2. split.
    + intros [H1 H2]. exists [], []. repeat split; assumption.
    + intros (s1 & s2 & Hs & H1 & H2).
      symmetry in Hs. apply app_eq_nil in Hs as [-> ->]. tauto.
  - rewrite orb_true_iff, IH1, IH2. tauto.
  - rewrite andb_true_iff, orb_true_iff, IH, Nat.eqb_eq. split.
    + intros [Hw [-> | Hr]].
      * exists 0%nat. repeat split; [lia|exact Hw].
      * exists lo. repeat split; [lia|exact Hw|]. apply power_nil. exact Hr.
    + intros (k & Hk & Hw & Hp). split; [apply (@within_mono _ _ _ Hk Hw)|].
      destruct lo as [|lo]; [left; reflexivity|right].
      destruct k as [|k]; [lia|]. apply (@power_nil_inv _ _ Hp).
Qed.

Lemma deriv_spec (c : ascii) (r : regex) (s : pystr) :
  lang (deriv c r) s <-> lang r (c :: s).
Proof.
  revert s.
  induction r as [| |p|r1 IH1 r2 IH2|r1 IH1 r2 IH2|lo hi r IH]; intros s; simpl.
  - tauto.
  - split; [tauto|discriminate].
  - destruct (p c) eqn:Hp; simpl; split.
    + intros ->. exists c. split; [reflexivity|exact Hp].
    + intros (d & Hs & _). injection Hs as _ ->. reflexivity.
    + tauto.
    + intros (d & Hs & Hd). injection Hs as -> ->. congruence.
  - rewrite lang_alt. simpl. rewrite lang_cat. simpl. split.
    + intros [(s1 & s2 & -> & H1 & H2) | H].
      * exists (c :: s1), s2. repeat split; [apply IH1; exact H1|exact H2].
      * destruct (nullable r1) eqn:Hn; [|destruct H].
        exists [], (c :: s). repeat split; [apply nullable_spec; exact Hn|].
        apply IH2. exact H.
    + intros (s1 & s2 & Hs & H1 & H2). destruct s1 as [|d s1]; simpl in Hs.
      * subst s2. right. apply nullable_spec in H1. rewrite H1.
        apply IH2. exact H2.
      * injection Hs as <- ->. left. exists s1, s2.
        repeat split; [apply IH1; exact H1|exact H2].
  - rewrite lang_alt. simpl. rewrite IH1, IH2. tauto.
  - destruct (within 1 hi) eqn:H1.
    + rewrite lang_cat. simpl. split.
      * intros (s1 & s2 & -> & Hd & k & Hk & Hw & Hp).
        exists (S k). repeat split; [lia|apply within_pred; tauto|].
        simpl. exists (c :: s1), s2. repeat split; [apply IH; exact Hd|exact Hp].
      * intros (k & Hk & Hw & Hp).
        destruct (@power_cons _ _ _ _ Hp) as (s1 & s2 & -> & Hc & Hp').
        exists s1, s2. repeat split; [apply IH; exact Hc|].
        destruct k as [|k]; [discriminate Hp|]. simpl in Hp'.
        exists k. repeat split; [lia| |exact Hp'].
        apply within_pred in Hw. tauto.
    + split; [intros []|]. intros (k & Hk & Hw & Hp).
      destruct k as [|k]; [discriminate Hp|].
      apply within_pred in Hw. destruct Hw as [_ Hw]. congruence.
Qed.

Theorem matches_spec (r : regex) (s : pystr) : matches r s = true <-> lang r s.
Proof.
  revert r. induction s as [|c s IH]; intros r; simpl.
  - apply nullable_spec.
  - rewrite IH. apply deriv_spec.
Qed.

Lemma lang_Lit (c : ascii) (s : pystr) : lang (Lit c) s <-> s = [c].
Proof.
  unfold Lit. simpl. split.
  - intros (d & -> & Hd). apply Ascii.eqb_eq in Hd. congruence.
  - intros ->. exists c. split; [reflexivity|apply Ascii.eqb_eq; reflexivity].
Qed.

Lemma power_Set (p : ascii -> bool) (k : nat) (s : pystr) :
  power (lang (Set_ p)) k s <-> List.length s = k /\ forallb p s = true.
Proof.
  revert s. induction k as [|k IH]; intros s; simpl.
  - split.
    + intros ->. split; reflexivity.
    + intros [H _]. apply length_zero_iff_nil in H. exact H.
  - split.
    + intros (s1 & s2 & -> & (c & -> & Hc) & Hp).
      apply IH in Hp as [Hl Hf]. simpl. rewrite Hc, Hf, Hl. split; reflexivity.
    + intros [Hl Hf]. destruct s as [|c s]; [discriminate Hl|].
      simpl in Hl, Hf. apply andb_true_iff in Hf as [Hc Hf].
      exists [c], s. repeat split.
      * exists c. split; [reflexivity|exact Hc].
      * apply IH. split; [lia|exact Hf].
Qed.

Lemma lang_Repeat_Set (p : ascii -> bool) (lo : nat) (hi : option nat) (s : pystr) :
  lang (Repeat lo hi (Set_ p)) s
  <-> (lo <= List.length s)%nat /\ within (List.length s) hi = true
      /\ forallb p s = true.
Proof.
  change (lang (Repeat lo hi (Set_ p)) s)
    with (exists k, (lo <= k)%nat /\ within k hi = true /\ power (lang (Set_ p)) k s).
  split.
  - intros (k & Hk & Hw & Hp). apply power_Set in Hp as [<- Hf]. tauto.
  - intros (Hk & Hw & Hf). exists (List.length s).
    repeat split; [exact Hk|exact Hw|]. apply power_Set. tauto.
Qed.

Lemma lang_bounded_Set (p : ascii -> bool) (lo hi : nat) (s : pystr) :
  lang (Repeat lo (Some hi) (Set_ p)) s <-> chars_of p lo hi s.
Proof.
  rewrite lang_Repeat_Set. unfold chars_of. simpl. rewrite Nat.leb_le. tauto.
Qed.

Lemma power_concat (L : pystr -> Prop) (k : nat) (s : pystr) :
  power L k s <-> exists ws, List.length ws = k /\ s = List.concat ws /\ Forall L ws.
Proof.
  revert s. induction k as [|k IH]; intros s; simpl.
  - split.
    + intros ->. exists []. repeat split. constructor.
    + intros (ws & Hl & -> & _). apply length_zero_iff_nil in Hl. subst ws.
      reflexivity.
  - split.
    + intros (s1 & s2 & -> & H1 & Hp). apply IH in Hp as (ws & Hl & -> & Hf).
      exists (s1 :: ws). simpl. repeat split; [lia|]. constructor; assumption.
    + intros (ws & Hl & -> & Hf). destruct ws as [|w ws]; [discriminate Hl|].
      inversion Hf as [|? ? Hw Hws]; subst. simpl in Hl.
      exists w, (List.concat ws). repeat split; [exact Hw|].
      apply IH. exists ws. repeat split; [lia|exact Hws].
Qed.

(** One repetition of the group of [SELECTOR_REGEX]: a dot and a segment. *)
Lemma lang_selector_group (t : pystr) :
  lang (Cat (Lit ".")
          (Alt (Cat (Lit "[") (Cat (Repeat 1 None (Set_ is_digit)) (Lit "]")))
               (Repeat 1 (Some 250) (Set_ selector_char)))) t
  <-> exists g, t = "."%char :: g /\ (index_segment g \/ token_segment g).
Proof.
  change (lang (Cat ?a ?b) t) with (exists s1 s2, t = s1 ++ s2 /\ lang a s1 /\ lang b s2).
  split.
  - intros (s1 & g & -> & Hdot & Hg). apply lang_Lit in Hdot. subst s1.
    exists g. split; [reflexivity|].
    change (lang (Alt ?a ?b) g) with (lang a g \/ lang b g) in Hg.
    destruct Hg as [Hi | Ht].
    + left.
      change (lang (Cat ?a ?b) g)
        with (exists s1 s2, g = s1 ++ s2 /\ lang a s1 /\ lang b s2) in Hi.
      destruct Hi as (s1 & s2 & -> & Hl & Hrest). apply lang_Lit in Hl. subst s1.
      change (lang (Cat ?a ?b) s2)
        with (exists t1 t2, s2 = t1 ++ t2 /\ lang a t1 /\ lang b t2) in Hrest.
      destruct Hrest as (ds & t2 & -> & Hds & Hr). apply lang_Lit in Hr. subst t2.
      apply lang_Repeat_Set in Hds as (Hlen & _ & Hf).
      exists ds. repeat split; assumption.
    + right. apply lang_bounded_Set. exact Ht.
  - intros (g & -> & Hg). exists ["."%char], g. repeat split.
    + apply lang_Lit. reflexivity.
    + change (lang (Alt ?a ?b) g) with (lang a g \/ lang b g).
      destruct Hg as [(ds & -> & Hlen & Hf) | Ht].
      * left. exists ["["%char], (ds ++ ["]"%char]). repeat split.
        -- apply lang_Lit. reflexivity.
        -- exists ds, ["]"%char]. repeat split.
           ++ apply lang_Repeat_Set. repeat split; assumption.
           ++ apply lang_Lit. reflexivity.
      * right. apply lang_bounded_Set. exact Ht.
Qed.

Lemma Forall_dotted (segs : list pystr) (P : pystr -> Prop) :
  Forall (fun t => exists g, t = "."%char :: g /\ P g) segs
  <-> exists gs, segs = map (fun g => "."%char :: g) gs /\ Forall P gs.
Proof.
  induction segs as [|t segs IH].
  - split.
    + intros _. exists []. split; [reflexivity|constructor].
    + intros _. constructor.
  - split.
    + intros H. inversion H as [|? ? (g & -> & Hg) Hrest]; subst.
      apply IH in Hrest as (gs & -> & Hgs).
      exists (g :: gs). split; [reflexivity|constructor; assumption].
    + intros (gs & Heq & Hgs). destruct gs as [|g gs]; [discriminate Heq|].
      simpl in Heq. injection Heq as -> ->.
      inversion Hgs as [|? ? Hg Hrest]; subst.
      constructor.
      * exists g. split; [reflexivity|exact Hg].
      * apply IH. exists gs. split; [reflexivity|exact Hrest].
Qed.

(** What [SELECTOR_REGEX] stands for is the grammar of selectors. *)
Theorem lang_SELECTOR_REGEX (s : pystr) :
  lang SELECTOR_REGEX s <-> selector_syntax s.
Proof.
  unfold SELECTOR_REGEX, selector_syntax.
  change (lang (Cat ?a ?b) s) with (exists s1 s2, s = s1 ++ s2 /\ lang a s1 /\ lang b s2).
  split.
  - intros (root & rest & -> & Hroot & Hrest).
    apply lang_bounded_Set in Hroot.
    change (lang (Repeat 0 None ?b) rest)
      with (exists k, (0 <= k)%nat /\ within k None = true /\ power (lang b) k rest)
      in Hrest.
    destruct Hrest as (k & _ & _ & Hp).
    apply power_concat in Hp as (ws & _ & -> & Hws).
    assert (Hd : Forall (fun t => exists g, t = "."%char :: g
                                 /\ (index_segment g \/ token_segment g)) ws).
    { eapply Forall_impl; [|exact Hws]. intros t Ht.
      apply lang_selector_group. exact Ht. }
    apply Forall_dotted in Hd as (gs & -> & Hgs).
    exists root, gs. split; [reflexivity|]. split; assumption.
  - intros (root & gs & -> & Hroot & Hgs).
    exists root, (List.concat (map (fun g => "."%char :: g) gs)). repeat split.
    + apply lang_bounded_Set. exact Hroot.
    + change (lang (Repeat 0 None ?b) ?t)
        with (exists k, (0 <= k)%nat /\ within k None = true /\ power (lang b) k t).
      exists (List.length (map (fun g => "."%char :: g) gs)).
      repeat split; [lia|].
      apply power_concat. exists (map (fun g => "."%char :: g) gs).
      repeat split.
      assert (Hd : Forall (fun t => exists g, t = "."%char :: g
                                   /\ (index_segment g \/ token_segment g))
                     (map (fun g => "."%char :: g) gs)).
      { apply Forall_dotted. exists gs. split; [reflexivity|exact Hgs]. }
      eapply Forall_impl; [|exact Hd]. intros t Ht.
      apply lang_selector_group. exact Ht.
Qed.

(** ** Identifiers *)

Lemma startswith_app (p s : pystr) : startswith (p ++ s) p = true.
Proof.
  induction p as [|c p IH]; simpl; [reflexivity|].
  rewrite ascii_eqb_refl. exact IH.
Qed.

(** Facts on single characters, by enumeration of the 256 of them. *)
Lemma is_hex_char_facts (c : ascii) :
  is_hex c = true ->
  is_space c = false /\ Ascii.eqb c "+" = false /\ Ascii.eqb c "-" = false
  /\ Ascii.eqb c "x" = false /\ Ascii.eqb c "X" = false
  /\ Ascii.eqb c "_" = false /\ Ascii.eqb "u" c = false
  /\ mem_char (str "{}") c = false /\ Ascii.eqb "-" c = false
  /\ exists d, hex_value c = Some d /\ (0 <= d < 16)%Z.
Proof.
  destruct c as [b0 b1 b2 b3 b4 b5 b6 b7].
  destruct b0, b1, b2, b3, b4, b5, b6, b7; intros H;
    try discriminate H; clear H;
    (repeat split; try reflexivity;
     eexists; split; [vm_compute; reflexivity|split; [intro Hd; discriminate Hd|reflexivity]]).
Qed.

Lemma hex_or_hyphen_facts (c : ascii) :
  hex_or_hyphen c = true ->
  Ascii.eqb "u" c = false /\ mem_char (str "{}") c = false.
Proof.
  unfold hex_or_hyphen. intros H. apply orb_true_iff in H as [H | H].
  - apply is_hex_char_facts in H. tauto.
  - apply Ascii.eqb_eq in H. subst c. split; reflexivity.
Qed.

Lemma is_hex_hex_char (d : Z) : is_hex (hex_char d) = true.
Proof.
  unfold hex_char. generalize (Z.to_nat d). intros k.
  do 16 (destruct k as [|k]; [reflexivity|]). destruct k; reflexivity.
Qed.

(** Strings without the first character of [old] keep all their characters. *)
Lemma remove_all_fuel_absent (h : ascii) (old s : pystr) (fuel : nat) :
  forallb (fun c => negb (Ascii.eqb h c)) s = true ->
  remove_all_fuel fuel (h :: old) s = s.
Proof.
  revert s. induction fuel as [|fuel IH]; intros s Hs; simpl; [reflexivity|].
  destruct s as [|c s]; simpl; [reflexivity|].
  simpl in Hs. apply andb_true_iff in Hs as [Hc Hs].
  apply negb_true_iff in Hc. rewrite Hc. simpl. rewrite (IH _ Hs). reflexivity.
Qed.

(** Removing a single character is a filter. *)
Lemma remove_all_fuel_char (h : ascii) (s : pystr) (fuel : nat) :
  (List.length s < fuel)%nat ->
  remove_all_fuel fuel [h] s = filter (fun c => negb (Ascii.eqb h c)) s.
Proof.
  revert s. induction fuel as [|fuel IH]; intros s Hlen; [lia|].
  destruct s as [|c s]; simpl; [reflexivity|].
  simpl in Hlen. destruct (Ascii.eqb h c); simpl.
  - apply IH. lia.
  - rewrite IH by lia. reflexivity.
Qed.

Lemma lstrip_id (p : ascii -> bool) (s : pystr) :
  forallb (fun c => negb (p c)) s = true -> lstrip p s = s.
Proof.
  destruct s as [|c s]; simpl; [reflexivity|].
  intros H. apply andb_true_iff in H as [Hc _].
  apply negb_true_iff in Hc. rewrite Hc. reflexivity.
Qed.

Lemma forallb_rev (p : ascii -> bool) (s : pystr) :
  forallb p s = true -> forallb p (rev s) = true.
Proof.
  rewrite !forallb_forall. intros H c Hc. apply H. apply in_rev. exact Hc.
Qed.

Lemma strip_id (p : ascii -> bool) (s : pystr) :
  forallb (fun c => negb (p c)) s = true -> strip p s = s.
Proof.
  intros H. unfold strip, rstrip. rewrite (lstrip_id _ _ H).
  rewrite lstrip_id by (apply forallb_rev; exact H). apply rev_involutive.
Qed.

Lemma forallb_impl (p q : ascii -> bool) (s : pystr) :
  (forall c, p c = true -> q c = true) ->
  forallb p s = true -> forallb q s = true.
Proof.
  intros Hpq. rewrite !forallb_forall. intros H c Hc. apply Hpq, H, Hc.
Qed.

Lemma filter_id (p : ascii -> bool) (s : pystr) :
  forallb p s = true -> filter p s = s.
Proof.
  induction s as [|c s IH]; simpl; [reflexivity|].
  intros H. apply andb_true_iff in H as [Hc Hs]. rewrite Hc, (IH Hs). reflexivity.
Qed.

Lemma forallb_firstn (p : ascii -> bool) (k : nat) (s : pystr) :
  forallb p s = true -> forallb p (firstn k s) = true.
Proof.
  revert k. induction s as [|c s IH]; intros [|k] H; simpl; try reflexivity.
  simpl in H. apply andb_true_iff in H as [Hc Hs]. rewrite Hc. apply IH, Hs.
Qed.

Lemma forallb_skipn (p : ascii -> bool) (k : nat) (s : pystr) :
  forallb p s = true -> forallb p (skipn k s) = true.
Proof.
  revert k. induction s as [|c s IH]; intros [|k] H; simpl; try reflexivity.
  - exact H.
  - simpl in H. apply andb_true_iff in H as [_ Hs]. apply IH, Hs.
Qed.

(** *** Hexadecimal digits *)

Lemma hex_digits_value_bounds (s : pystr) (acc : Z) :
  forallb is_hex s = true ->
  (0 <= acc)%Z ->
  exists v, hex_digits_value s false acc = Some v
            /\ (acc * 16 ^ Z.of_nat (List.length s) <= v
                < (acc + 1) * 16 ^ Z.of_nat (List.length s))%Z.
Proof.
  revert acc. induction s as [|c s IH]; intros acc Hs Hacc.
  - exists acc. simpl. split; [reflexivity|lia].
  - simpl in Hs. apply andb_true_iff in Hs as [Hc Hs].
    destruct (is_hex_char_facts _ Hc)
      as (_ & _ & _ & _ & _ & Hus & _ & _ & _ & d & Hd & Hrange).
    cbn [hex_digits_value]. rewrite Hus, Hd.
    destruct (IH (acc * 16 + d)%Z Hs ltac:(lia)) as (v & Hv & Hb).
    exists v. split; [exact Hv|].
    replace (Z.of_nat (List.length (c :: s))) with (Z.succ (Z.of_nat (List.length s)))
      by (simpl List.length; lia).
    rewrite Z.pow_succ_r by lia.
    assert (Hpow : (0 < 16 ^ Z.of_nat (List.length s))%Z) by (apply Z.pow_pos_nonneg; lia).
    nia.
Qed.

Lemma int16_hex (s : pystr) :
  s <> [] ->
  forallb is_hex s = true ->
  exists v, hex_digits_value s false 0 = Some v
            /\ int16 s = Ok v /\ (0 <= v < 16 ^ Z.of_nat (List.length s))%Z.
Proof.
  intros Hne Hs. unfold int16.
  rewrite strip_id.
  2:{ apply (@forallb_impl is_hex); [|exact Hs].
      intros c Hc. apply is_hex_char_facts in Hc. apply negb_true_iff. tauto. }
  destruct (@hex_digits_value_bounds s 0 Hs ltac:(lia)) as (v & Hv & Hb).
  destruct s as [|c s]; [congruence|]. clear Hne.
  pose proof Hs as Hs'. simpl in Hs'. apply andb_true_iff in Hs' as [Hc Hrest].
  destruct (is_hex_char_facts _ Hc) as (_ & Hplus & Hminus & _ & _ & Hus & _).
  rewrite Hplus, Hminus. cbv beta iota zeta.
  destruct s as [|x s'].
  - rewrite Hus, Hv. exists v. split; [reflexivity|]. split; [reflexivity|lia].
  - simpl in Hrest. apply andb_true_iff in Hrest as [Hx _].
    destruct (is_hex_char_facts _ Hx) as (_ & _ & _ & Hx1 & Hx2 & _).
    rewrite Hx1, Hx2, andb_false_r. cbv beta iota zeta.
    rewrite Hus, Hv. exists v. split; [reflexivity|]. split; [reflexivity|lia].
Qed.

Lemma hex_digits_hex (fuel : nat) (n : Z) (acc : pystr) :
  forallb is_hex acc = true -> forallb is_hex (hex_digits fuel n acc) = true.
Proof.
  revert n acc. induction fuel as [|fuel IH]; intros n acc Hacc; simpl; [exact Hacc|].
  assert (Hacc' : forallb is_hex (hex_char (n mod 16) :: acc) = true).
  { simpl. rewrite is_hex_hex_char. exact Hacc. }
  destruct (n / 16 =? 0)%Z; [exact Hacc'|]. apply IH. exact Hacc'.
Qed.

Lemma hex_digits_length (fuel : nat) (n : Z) (acc : pystr) (k : nat) :
  (0 <= n < 16 ^ Z.of_nat (S k))%Z ->
  (List.length (hex_digits fuel n acc) <= S k + List.length acc)%nat.
Proof.
  revert n acc k. induction fuel as [|fuel IH]; intros n acc k Hn; simpl; [lia|].
  destruct (n / 16 =? 0)%Z eqn:Hq; [simpl; lia|].
  apply Z.eqb_neq in Hq.
  destruct k as [|k].
  - exfalso. apply Hq. apply Z.div_small. simpl in Hn. lia.
  - specialize (IH (n / 16)%Z (hex_char (n mod 16) :: acc) k).
    simpl List.length in IH.
    assert (Hdiv : (0 <= n / 16 < 16 ^ Z.of_nat (S k))%Z).
    { split; [apply Z.div_pos; lia|].
      apply Z.div_lt_upper_bound; [lia|].
      replace (Z.of_nat (S (S k))) with (Z.succ (Z.of_nat (S k))) in Hn by lia.
      rewrite Z.pow_succ_r in Hn by lia. lia. }
    specialize (IH Hdiv). lia.
Qed.

Lemma format_032x_shape (n : Z) :
  (0 <= n < 2 ^ 128)%Z ->
  List.length (format_032x n) = 32%nat /\ forallb is_hex (format_032x n) = true.
Proof.
  intros Hn. unfold format_032x.
  set (digits := hex_digits (S (Z.to_nat (Z.log2 n))) n []).
  assert (Hlen : (List.length digits <= 32)%nat).
  { pose proof (@hex_digits_length (S (Z.to_nat (Z.log2 n))) n [] 31) as H.
    simpl List.length in H. rewrite Nat.add_0_r in H. apply H.
    change (16 ^ Z.of_nat 32)%Z with (2 ^ 128)%Z. exact Hn. }
  split.
  - rewrite length_app, repeat_length. lia.
  - rewrite forallb_app. apply andb_true_iff. split.
    + apply forallb_forall. intros c Hc. apply repeat_spec in Hc. subst c.
      reflexivity.
    + apply hex_digits_hex. reflexivity.
Qed.

Lemma hex_value_hex_char (d : Z) :
  (0 <= d < 16)%Z -> hex_value (hex_char d) = Some d /\ Ascii.eqb (hex_char d) "_" = false.
Proof.
  intros Hd.
  assert (Hcase : (d = 0 \/ d = 1 \/ d = 2 \/ d = 3 \/ d = 4 \/ d = 5 \/ d = 6 \/ d = 7
                   \/ d = 8 \/ d = 9 \/ d = 10 \/ d = 11 \/ d = 12 \/ d = 13
                   \/ d = 14 \/ d = 15)%Z) by lia.
  repeat (destruct Hcase as [-> | Hcase]; [split; reflexivity|]).
  subst d. split; reflexivity.
Qed.

(** Reading the digits that [hex_digits] writes gives the number back. *)
Lemma hex_digits_value_hex_digits (fuel : nat) (n : Z) (acc : pystr) :
  (0 <= n < 2 ^ Z.of_nat fuel)%Z ->
  (0 < fuel)%nat ->
  hex_digits_value (hex_digits fuel n acc) false 0 = hex_digits_value acc false n.
Proof.
  revert n acc. induction fuel as [|fuel IH]; intros n acc Hn Hfuel; [lia|].
  cbn [hex_digits].
  assert (Hmod : (0 <= n mod 16 < 16)%Z) by (apply Z.mod_pos_bound; lia).
  destruct (hex_value_hex_char Hmod) as [Hval Hus].
  destruct (n / 16 =? 0)%Z eqn:Hq.
  - apply Z.eqb_eq in Hq. cbn [hex_digits_value]. rewrite Hus, Hval.
    f_equal. pose proof (Z.div_mod n 16 ltac:(lia)). lia.
  - apply Z.eqb_neq in Hq.
    assert (Hdiv : (0 <= n / 16 < 2 ^ Z.of_nat fuel)%Z).
    { split; [apply Z.div_pos; lia|].
      replace (Z.of_nat (S fuel)) with (Z.succ (Z.of_nat fuel)) in Hn by lia.
      rewrite Z.pow_succ_r in Hn by lia.
      apply Z.div_lt_upper_bound; lia. }
    assert (Hfuel' : (0 < fuel)%nat).
    { destruct fuel; [|lia]. simpl in Hdiv. lia. }
    rewrite (IH _ _ Hdiv Hfuel'). cbn [hex_digits_value]. rewrite Hus, Hval.
    f_equal. pose proof (Z.div_mod n 16 ltac:(lia)). lia.
Qed.

Lemma hex_digits_value_zeros (k : nat) (s : pystr) :
  hex_digits_value (repeat "0"%char k ++ s) false 0 = hex_digits_value s false 0.
Proof.
  induction k as [|k IH]; [reflexivity|]. cbn. exact IH.
Qed.

Lemma hex_digits_value_format_032x (n : Z) :
  (0 <= n)%Z -> hex_digits_value (format_032x n) false 0 = Some n.
Proof.
  intros Hn. unfold format_032x. rewrite hex_digits_value_zeros.
  rewrite hex_digits_value_hex_digits; [reflexivity| |lia].
  split; [exact Hn|].
  destruct (Z.eq_dec n 0) as [-> | Hne]; [reflexivity|].
  replace (Z.of_nat (S (Z.to_nat (Z.log2 n)))) with (Z.succ (Z.log2 n)).
  - apply Z.log2_spec. lia.
  - pose proof (Z.log2_nonneg n). lia.
Qed.

(** *** UUIDs *)

Lemma int_from_bytes_bounds (b : list byte) :
  (0 <= int_from_bytes b < 256 ^ Z.of_nat (List.length b))%Z.
Proof.
  unfold int_from_bytes.
  assert (H : forall acc : Z,
             (0 <= acc)%Z ->
             (acc * 256 ^ Z.of_nat (List.length b)
              <= fold_left (fun acc x => (acc * 256 + Z.of_N (Byte.to_N x))%Z) b acc
              < (acc + 1) * 256 ^ Z.of_nat (List.length b))%Z).
  { induction b as [|x b IH]; intros acc Hacc.
    - simpl. lia.
    - replace (Z.of_nat (List.length (x :: b))) with (Z.succ (Z.of_nat (List.length b)))
        by (simpl List.length; lia).
      rewrite Z.pow_succ_r by lia. cbn [fold_left].
      pose proof (Byte.to_N_bounded x) as Hx.
      assert (Hpow : (0 < 256 ^ Z.of_nat (List.length b))%Z)
        by (apply Z.pow_pos_nonneg; lia).
      specialize (IH (acc * 256 + Z.of_N (Byte.to_N x))%Z ltac:(lia)). nia. }
  specialize (H 0%Z ltac:(lia)). lia.
Qed.

Lemma lt_pow2_128 (x : Z) : (0 <= x)%Z -> (x < 2 ^ 128 <-> Z.log2 x < 128)%Z.
Proof.
  intros Hx. destruct (Z.eq_dec x 0) as [-> | Hne].
  - simpl. split; intros _; reflexivity.
  - apply Z.log2_lt_pow2. lia.
Qed.

Lemma land_lnot_bounds (x m : Z) :
  (0 <= x)%Z -> (0 <= m)%Z -> (0 <= Z.land x (Z.lnot m) <= x)%Z.
Proof.
  intros Hx Hm. split.
  - rewrite <- Z.ldiff_land. apply Z.ldiff_nonneg. left. exact Hx.
  - rewrite <- Z.sub_land_same_l.
    assert (H : (0 <= Z.land x m)%Z) by (apply Z.land_nonneg; lia).
    lia.
Qed.

Lemma lor_lt_pow2_128 (x m : Z) :
  (0 <= x < 2 ^ 128)%Z -> (0 <= m < 2 ^ 128)%Z -> (0 <= Z.lor x m < 2 ^ 128)%Z.
Proof.
  intros Hx Hm.
  assert (H0 : (0 <= Z.lor x m)%Z) by (apply Z.lor_nonneg; lia).
  split; [exact H0|]. apply lt_pow2_128; [exact H0|].
  rewrite Z.log2_lor by lia.
  apply Z.max_lub_lt; apply lt_pow2_128; lia.
Qed.

Lemma version_field_mask (i : Z) :
  (0 <= i < 4)%Z ->
  Z.testbit (Z.lnot (Z.shiftl 61440 64)) (i + 76) = false
  /\ Z.testbit 15 i = true.
Proof.
  intros Hi. assert (Hcase : (i = 0 \/ i = 1 \/ i = 2 \/ i = 3)%Z) by lia.
  destruct Hcase as [-> | [-> | [-> | ->]]]; split; reflexivity.
Qed.

(** With a version between 1 and 5, the end of [UUID.__init__] never
    fails on a 128-bit integer, and it writes the version into the field. *)
Lemma UUID_finish_version (x version : Z) :
  (0 <= x < 2 ^ 128)%Z ->
  (1 <= version <= 5)%Z ->
  exists n, UUID_finish x (Some version) = Ok n
            /\ (0 <= n < 2 ^ 128)%Z /\ UUID_version n = version.
Proof.
  intros Hx Hv. unfold UUID_finish.
  assert (Hrange : ((0 <=? x) && (x <? Z.shiftl 1 128))%Z = true).
  { apply andb_true_iff. split; [apply Z.leb_le|apply Z.ltb_lt]; simpl; lia. }
  assert (Hvers : ((1 <=? version) && (version <=? 5))%Z = true).
  { apply andb_true_iff. split; apply Z.leb_le; lia. }
  rewrite Hrange, Hvers. simpl negb. cbv iota.
  eexists. split; [reflexivity|].
  set (a := Z.land x (Z.lnot (Z.shiftl 49152 48))).
  set (b := Z.lor a (Z.shiftl 32768 48)).
  set (c := Z.land b (Z.lnot (Z.shiftl 61440 64))).
  assert (Ha : (0 <= a < 2 ^ 128)%Z).
  { pose proof (@land_lnot_bounds x (Z.shiftl 49152 48) ltac:(lia) ltac:(simpl; lia)).
    subst a. lia. }
  assert (Hb : (0 <= b < 2 ^ 128)%Z).
  { apply lor_lt_pow2_128; [exact Ha|]. simpl. lia. }
  assert (Hc : (0 <= c < 2 ^ 128)%Z).
  { pose proof (@land_lnot_bounds b (Z.shiftl 61440 64) ltac:(lia) ltac:(simpl; lia)).
    subst c. lia. }
  split.
  - apply lor_lt_pow2_128; [exact Hc|].
    rewrite Z.shiftl_mul_pow2 by lia.
    change (2 ^ 128)%Z with (16 * 2 ^ 76 * 2 ^ 48)%Z. 
    assert (0 < 2 ^ 76)%Z by (apply Z.pow_pos_nonneg; lia).
    assert (1 <= 2 ^ 48)%Z by (apply Z.lt_pred_le, Z.pow_pos_nonneg; lia).
    nia.
  - unfold UUID_version. apply Z.bits_inj'. intros i Hi.
    rewrite Z.land_spec, Z.shiftr_spec, Z.lor_spec by lia.
    subst c. rewrite Z.land_spec, Z.shiftl_spec by lia.
    replace (i + 76 - 76)%Z with i by lia.
    destruct (Z.ltb_spec i 4) as [Hlt | Hge].
    + destruct (@version_field_mask i ltac:(lia)) as [Hmask Hlow].
      rewrite Hmask, Hlow, andb_false_r, andb_true_r. reflexivity.
    + replace (Z.testbit 15 i) with false; [rewrite andb_false_r|].
      * symmetry. apply Z.bits_above_log2; [lia|].
        assert (Hlog : (Z.log2 version < 3)%Z).
        { apply Z.log2_lt_pow2; simpl; lia. }
        lia.
      * symmetry. apply Z.bits_above_log2; simpl; lia.
Qed.

Lemma uuid4_version (urandom : list byte) :
  List.length urandom = 16%nat ->
  exists n, uuid4 urandom = Ok n /\ (0 <= n < 2 ^ 128)%Z /\ UUID_version n = 4%Z.
Proof.
  intros Hlen. unfold uuid4, UUID_of_bytes. rewrite Hlen. simpl negb. cbv iota.
  apply UUID_finish_version; [|lia].
  pose proof (int_from_bytes_bounds urandom) as H. rewrite Hlen in H.
  exact H.
Qed.

Lemma UUID___str___shape (n : Z) :
  (0 <= n < 2 ^ 128)%Z ->
  forallb hex_or_hyphen (UUID___str__ n) = true
  /\ filter (fun c => negb (Ascii.eqb "-" c)) (UUID___str__ n) = format_032x n
  /\ List.length (UUID___str__ n) = 36%nat
  /\ exists c rest, UUID___str__ n = c :: rest /\ is_hex c = true.
Proof.
  intros Hn. destruct (format_032x_shape Hn) as [Hlen Hhex].
  unfold UUID___str__. set (h := format_032x n) in *.
  change (str "-") with ["-"%char].
  assert (Hpiece : forall piece : pystr,
             forallb is_hex piece = true ->
             forallb hex_or_hyphen piece = true
             /\ filter (fun c => negb (Ascii.eqb "-" c)) piece = piece).
  { intros piece Hp. split.
    - apply (@forallb_impl is_hex); [|exact Hp].
      intros c Hc. unfold hex_or_hyphen. rewrite Hc. reflexivity.
    - apply filter_id. apply (@forallb_impl is_hex); [|exact Hp].
      intros c Hc. apply is_hex_char_facts in Hc. apply negb_true_iff. tauto. }
  destruct (Hpiece _ (@forallb_firstn is_hex 8 h Hhex)) as [Ha1 Ha2].
  destruct (Hpiece _ (@forallb_firstn is_hex 4 _ (@forallb_skipn is_hex 8 h Hhex)))
    as [Hb1 Hb2].
  destruct (Hpiece _ (@forallb_firstn is_hex 4 _ (@forallb_skipn is_hex 12 h Hhex)))
    as [Hc1 Hc2].
  destruct (Hpiece _ (@forallb_firstn is_hex 4 _ (@forallb_skipn is_hex 16 h Hhex)))
    as [Hd1 Hd2].
  destruct (Hpiece _ (@forallb_skipn is_hex 20 h Hhex)) as [He1 He2].
  split; [|split; [|split]].
  - rewrite !forallb_app. cbn [forallb].
    rewrite Ha1, Hb1, Hc1, Hd1, He1. reflexivity.
  - rewrite !filter_app. cbn [filter]. 
    change (negb (Ascii.eqb "-" "-")) with false. cbv iota.
    rewrite Ha2, Hb2, Hc2, Hd2, He2. cbn [app].
    change 20%nat with (4 + 16)%nat. rewrite <- (skipn_skipn 4 16 h).
    rewrite (firstn_skipn 4 (skipn 16 h)).
    change 16%nat with (4 + 12)%nat. rewrite <- (skipn_skipn 4 12 h).
    rewrite (firstn_skipn 4 (skipn 12 h)).
    change 12%nat with (4 + 8)%nat. rewrite <- (skipn_skipn 4 8 h).
    rewrite (firstn_skipn 4 (skipn 8 h)).
    apply firstn_skipn.
  - rewrite !length_app, !length_firstn, !length_skipn, Hlen. reflexivity.
  - destruct h as [|c h']; [discriminate Hlen|].
    exists c. eexists. split; [reflexivity|].
    simpl in Hhex. apply andb_true_iff in Hhex as [Hc _]. exact Hc.
Qed.

(** [uuid.UUID(x, version=version)] reads any writing of 32 hexadecimal
    digits with hyphens among them as the number the digits stand for. *)
Lemma UUID_of_hex_hyphenated (x digits : pystr) :
  forallb hex_or_hyphen x = true ->
  filter (fun c => negb (Ascii.eqb "-" c)) x = digits ->
  List.length digits = 32%nat ->
  forallb is_hex digits = true ->
  exists v, hex_digits_value digits false 0 = Some v
            /\ (0 <= v < 2 ^ 128)%Z
            /\ forall version, UUID_of_hex x version = UUID_finish v version.
Proof.
  intros Hx Hfilter Hlen Hhex.
  destruct (@int16_hex digits) as (v & Hdigits & Hv & Hb).
  { intros ->. discriminate Hlen. }
  { exact Hhex. }
  rewrite Hlen in Hb. exists v. split; [exact Hdigits|]. split; [exact Hb|].
  intros version. unfold UUID_of_hex, replace_empty.
  assert (Hu : forallb (fun c => negb (Ascii.eqb "u" c)) x = true).
  { apply (@forallb_impl hex_or_hyphen); [|exact Hx].
    intros c Hc. apply hex_or_hyphen_facts in Hc. apply negb_true_iff. tauto. }
  change (str "urn:") with ("u"%char :: str "rn:").
  rewrite (@remove_all_fuel_absent "u" (str "rn:") x _ Hu).
  change (str "uuid:") with ("u"%char :: str "uid:").
  rewrite (@remove_all_fuel_absent "u" (str "uid:") x _ Hu).
  rewrite strip_id.
  2:{ apply (@forallb_impl hex_or_hyphen); [|exact Hx].
      intros c Hc. apply hex_or_hyphen_facts in Hc. apply negb_true_iff. tauto. }
  change (str "-") with ["-"%char].
  rewrite remove_all_fuel_char by lia.
  rewrite Hfilter, Hlen. simpl negb. cbv iota.
  rewrite Hv. reflexivity.
Qed.

Lemma UUID_finish_plain (n : Z) :
  (0 <= n < 2 ^ 128)%Z -> UUID_finish n None = Ok n.
Proof.
  intros Hn. unfold UUID_finish.
  assert (Hrange : ((0 <=? n) && (n <? Z.shiftl 1 128))%Z = true).
  { apply andb_true_iff. split; [apply Z.leb_le|apply Z.ltb_lt]; simpl; lia. }
  rewrite Hrange. reflexivity.
Qed.

(** Cutting [t + "--" + u] at the first ["--"] leaves [u], or [u] after a
    hyphen when [t] ends with one, provided [t] holds no ["--"]. *)
Lemma split1_after_prefix (t u : pystr) :
  contains (str "--") t = false ->
  exists before,
    split1 (str "--") (t ++ str "--" ++ u) = [before; u]
    \/ split1 (str "--") (t ++ str "--" ++ u) = [before; "-"%char :: u].
Proof.
  change (str "--") with ["-"%char; "-"%char]. cbn [app].
  induction t as [|c t IH]; intros Hno.
  - exists []. left. reflexivity.
  - cbn [contains] in Hno. apply orb_false_iff in Hno as [Hhere Hrest].
    destruct (IH Hrest) as (before & Hsplit).
    cbn [app split1].
    destruct (startswith (c :: t ++ "-"%char :: "-"%char :: u) ["-"%char; "-"%char])
      eqn:Hstart.
    + exists []. right.
      cbn [startswith] in Hstart. apply andb_true_iff in Hstart as [Hc Hnext].
      destruct t as [|d t].
      * reflexivity.
      * cbn [app startswith] in Hnext. cbn [startswith] in Hhere.
        rewrite Hc in Hhere. cbn [andb] in Hhere.
        rewrite andb_true_r in Hnext. rewrite andb_true_r in Hhere. congruence.
    + exists (c :: before). destruct Hsplit as [-> | ->]; [left|right]; reflexivity.
Qed.

(** ** The identifier kinds and the selector *)

Section IdentifierKinds.

Variable builtin_str : PyValue -> pystr.
Variable parser_parse : PyValue -> result datetime.

Lemma validate_IDProperty (t : pystr) (v : PyValue) :
  validate builtin_str parser_parse (IDProperty t) v
  = IDProperty_validate (IDProperty t) v.
Proof. reflexivity. Qed.

Lemma required_prefix_IDProperty (t : pystr) :
  required_prefix (IDProperty t) = Some (t ++ str "--").
Proof. reflexivity. Qed.

Lemma IDProperty_validate_prefix (t v : pystr) :
  startswith v (t ++ str "--") = false ->
  validate builtin_str parser_parse (IDProperty t) (PyStr v)
  = Raise (ValueError (str "must start with '" ++ (t ++ str "--") ++ str "'.")).
Proof.
  intros Hv. rewrite validate_IDProperty. unfold IDProperty_validate.
  rewrite required_prefix_IDProperty. cbn [method_startswith bind].
  rewrite Hv. reflexivity.
Qed.

Lemma IDProperty_validate_suffix (t v suffix : pystr) (n : Z) :
  startswith v (t ++ str "--") = true ->
  nth_error (split1 (str "--") v) 1 = Some suffix ->
  UUID_of_hex suffix (Some 4%Z) = Ok n ->
  validate builtin_str parser_parse (IDProperty t) (PyStr v) = Ok (PyStr v).
Proof.
  intros Hv Hsplit Huuid. rewrite validate_IDProperty. unfold IDProperty_validate.
  rewrite required_prefix_IDProperty. cbn [method_startswith bind].
  rewrite Hv, Hsplit, Huuid. reflexivity.
Qed.

(** C7, as the code has it: for a type [t] that holds no ["--"], the
    identifier [IDProperty(t).default()] returns is [t], ["--"] and the text
    of a UUID, 36 characters that read back as a UUID whose version field
    is 4, and [IDProperty(t).validate] takes it and returns it unchanged. *)
Theorem IDProperty_default_validates (t : pystr) (urandom : list byte) :
  contains (str "--") t = false ->
  List.length urandom = 16%nat ->
  exists n,
    uuid4 urandom = Ok n
    /\ UUID_version n = 4%Z
    /\ UUID_of_hex (UUID___str__ n) None = Ok n
    /\ List.length (UUID___str__ n) = 36%nat
    /\ default (IDProperty t) urandom = Ok (PyStr (t ++ str "--" ++ UUID___str__ n))
    /\ validate builtin_str parser_parse (IDProperty t)
         (PyStr (t ++ str "--" ++ UUID___str__ n))
       = Ok (PyStr (t ++ str "--" ++ UUID___str__ n)).
Proof.
  intros Ht Hlen.
  destruct (@uuid4_version urandom Hlen) as (n & Hn & Hrange & Hver).
  destruct (@UUID___str___shape n Hrange) as (Hchars & Hfilter & Hlen36 & _).
  destruct (@format_032x_shape n Hrange) as [Hlen32 Hhex].
  assert (Hsuffix : forall x,
             forallb hex_or_hyphen x = true ->
             filter (fun c => negb (Ascii.eqb "-" c)) x = format_032x n ->
             (forall version, UUID_of_hex x version = UUID_finish n version)
             /\ exists m, UUID_of_hex x (Some 4%Z) = Ok m).
  { intros x Hx Hfx.
    destruct (@UUID_of_hex_hyphenated _ _ Hx Hfx Hlen32 Hhex) as (v & Hv & _ & Hof).
    rewrite hex_digits_value_format_032x in Hv by lia. injection Hv as <-.
    split; [exact Hof|].
    destruct (@UUID_finish_version n 4 Hrange ltac:(lia)) as (m & Hm & _).
    exists m. rewrite Hof. exact Hm. }
  exists n. split; [exact Hn|]. split; [exact Hver|]. split; [|split; [exact Hlen36|split]].
  - destruct (Hsuffix _ Hchars Hfilter) as [Hof _].
    rewrite Hof. apply UUID_finish_plain. exact Hrange.
  - change (default (IDProperty t) urandom)
      with (IDProperty_default (IDProperty t) urandom).
    unfold IDProperty_default. rewrite required_prefix_IDProperty, Hn.
    cbn [bind]. rewrite <- app_assoc. reflexivity.
  - destruct (@split1_after_prefix t (UUID___str__ n) Ht) as (before & [Hs | Hs]).
    + destruct (Hsuffix _ Hchars Hfilter) as [_ (m & Hm)].
      apply (@IDProperty_validate_suffix t _ (UUID___str__ n) m).
      * rewrite app_assoc. apply startswith_app.
      * rewrite Hs. reflexivity.
      * exact Hm.
    + assert (Hchars' : forallb hex_or_hyphen ("-"%char :: UUID___str__ n) = true).
      { cbn [forallb]. rewrite Hchars. reflexivity. }
      assert (Hfilter' : filter (fun c => negb (Ascii.eqb "-" c))
                           ("-"%char :: UUID___str__ n) = format_032x n).
      { cbn [filter]. change (negb (Ascii.eqb "-" "-")) with false. exact Hfilter. }
      destruct (Hsuffix _ Hchars' Hfilter') as [_ (m & Hm)].
      apply (@IDProperty_validate_suffix t _ ("-"%char :: UUID___str__ n) m).
      * rewrite app_assoc. apply startswith_app.
      * rewrite Hs. reflexivity.
      * exact Hm.
Qed.

(** C3, at the input where the code leaves it: after the prefix
    ["malware--"] stands a well-formed UUID of version 1, and
    [IDProperty("malware").validate] returns the identifier instead of
    failing; [uuid.UUID(..., version=4)] does not compare the version, it
    writes 4 into the field.  An identifier without the prefix fails with
    the prefix error, and a suffix that is no UUID with the UUID error. *)
Theorem IDProperty_validate_version_1 :
  bind (UUID_of_hex uuid_v1_text None) (fun n => Ok (UUID_version n)) = Ok 1%Z
  /\ bind (UUID_of_hex uuid_v1_text (Some 4%Z)) (fun n => Ok (UUID_version n)) = Ok 4%Z
  /\ validate builtin_str parser_parse (IDProperty (str "malware"))
       (PyStr (str "malware--" ++ uuid_v1_text))
     = Ok (PyStr (str "malware--" ++ uuid_v1_text))
  /\ validate builtin_str parser_parse (IDProperty (str "malware"))
       (PyStr (str "campaign--" ++ uuid_v4_text))
     = Raise (ValueError (str "must start with 'malware--'."))
  /\ validate builtin_str parser_parse (IDProperty (str "malware"))
       (PyStr (str "malware--not-a-uuid"))
     = Raise (ValueError (str "must have a valid version 4 UUID after the prefix.")).
Proof.
  split; [vm_compute; reflexivity|]. split; [vm_compute; reflexivity|].
  split; [|split].
  - apply (@IDProperty_validate_suffix (str "malware") _ uuid_v1_text
             302240678275694148452352%Z); vm_compute; reflexivity.
  - apply (@IDProperty_validate_prefix (str "malware")). reflexivity.
  - vm_compute. reflexivity.
Qed.

(** C5, at the input where the code leaves it: [ReferenceProperty]
    compares the start of the identifier with the type alone, without the
    ["--"] after it, so with the type ["malware"] an identifier of the type
    ["malware-analysis"], which does not start with ["malware--"], is
    accepted.  ["malware--<uuid>"] is accepted and ["campaign--<uuid>"]
    fails with the prefix error. *)
Theorem ReferenceProperty_validate_type_prefix :
  startswith (str "malware-analysis--" ++ uuid_v4_text) (str "malware--") = false
  /\ validate builtin_str parser_parse (ReferenceProperty false (Some (str "malware")))
       (PyStr (str "malware-analysis--" ++ uuid_v4_text))
     = Ok (PyStr (str "malware-analysis--" ++ uuid_v4_text))
  /\ validate builtin_str parser_parse (ReferenceProperty false (Some (str "malware")))
       (PyStr (str "malware--" ++ uuid_v4_text))
     = Ok (PyStr (str "malware--" ++ uuid_v4_text))
  /\ validate builtin_str parser_parse (ReferenceProperty false (Some (str "malware")))
       (PyStr (str "campaign--" ++ uuid_v4_text))
     = Raise (ValueError (str "must start with 'malware'.")).
Proof.
  split; [reflexivity|]. split; [vm_compute; reflexivity|].
  split; vm_compute; reflexivity.
Qed.

Lemma match_to_dollar_plain (r : regex) (s : pystr) :
  ends_with_newline s = false -> match_to_dollar r s = matches r s.
Proof.
  unfold ends_with_newline, match_to_dollar. intros H.
  destruct (rev s) as [|c before]; [apply orb_false_r|].
  rewrite H. apply orb_false_r.
Qed.

Lemma SelectorProperty_validate_str (s : pystr) :
  validate builtin_str parser_parse (SelectorProperty None) (PyStr s)
  = if match_to_dollar SELECTOR_REGEX s then Ok (PyStr s)
    else Raise (ValueError (str "values must adhere to selector syntax")).
Proof.
  unfold validate, SelectorProperty. cbn. unfold SelectorProperty_validate. cbn.
  destruct (match_to_dollar SELECTOR_REGEX s); reflexivity.
Qed.

(** C4, as the code has it: [SelectorProperty().validate("a.b.[0].c")]
    fails with "values must adhere to selector syntax", its root segment
    ["a"] being shorter than three characters, as [validate("ab")] does;
    [validate("abc.b.[0].c")] succeeds.  A string that does not end with a
    newline is accepted exactly when it is a root segment of 3 to 250
    characters of [[a-z0-9_-]] and then any number of segments after dots,
    each a bracketed run of digits or 1 to 250 characters of [[a-z0-9_-]];
    it is rejected with that error otherwise. *)
Theorem SelectorProperty_validate_grammar :
  validate builtin_str parser_parse (SelectorProperty None) (PyStr (str "a.b.[0].c"))
  = Raise (ValueError (str "values must adhere to selector syntax"))
  /\ validate builtin_str parser_parse (SelectorProperty None) (PyStr (str "ab"))
     = Raise (ValueError (str "values must adhere to selector syntax"))
  /\ validate builtin_str parser_parse (SelectorProperty None) (PyStr (str "abc.b.[0].c"))
     = Ok (PyStr (str "abc.b.[0].c"))
  /\ (forall s : pystr,
         ends_with_newline s = false ->
         (validate builtin_str parser_parse (SelectorProperty None) (PyStr s)
          = Ok (PyStr s) <-> selector_syntax s)
         /\ (validate builtin_str parser_parse (SelectorProperty None) (PyStr s)
             = Ok (PyStr s)
             \/ validate builtin_str parser_parse (SelectorProperty None) (PyStr s)
                = Raise (ValueError (str "values must adhere to selector syntax")))).
Proof.
  split; [vm_compute; reflexivity|]. split; [vm_compute; reflexivity|].
  split; [vm_compute; reflexivity|].
  intros s Hs. rewrite SelectorProperty_validate_str.
  rewrite (@match_to_dollar_plain _ _ Hs).
  rewrite <- lang_SELECTOR_REGEX, <- matches_spec.
  destruct (matches SELECTOR_REGEX s); split.
  - split; reflexivity.
  - left. reflexivity.
  - split; discriminate.
  - right. reflexivity.
Qed.

End IdentifierKinds.

(** ** Concrete runs *)


(** A STIX object is an input other than those a boolean is read from, and
    [validate] raises [TypeError] on it, not "must be a boolean value.". *)
Example BooleanProperty_TypeError_on_object :
  validate sample_str sample_parse (BooleanProperty no_kwargs)
    (PyStix [(str "type", PyStr (str "bundle"))])
  = Raise TypeError.
Proof. reflexivity. Qed.

(** C4 as stated fails: ["a.b.[0].c"] is rejected. *)
Lemma SelectorProperty_rejects_short_root :
  validate sample_str sample_parse (SelectorProperty None) (PyStr (str "a.b.[0].c"))
  = Raise (ValueError (str "values must adhere to selector syntax")).
Proof. vm_compute. reflexivity. Qed.

(** The code also takes a selector followed by one newline. *)
Example SelectorProperty_takes_final_newline :
  validate sample_str sample_parse (SelectorProperty None)
    (PyStr (str "abc" ++ [newline]))
  = Ok (PyStr (str "abc" ++ [newline])).
Proof. vm_compute. reflexivity. Qed.

(** ["abc.b.[0].c"] is a selector of the grammar, since [validate]
    accepts it. *)
Lemma SelectorProperty_validate_grammar_run :
  ends_with_newline (str "abc.b.[0].c") = false
  /\ selector_syntax (str "abc.b.[0].c").
Proof.
  split; [reflexivity|].
  apply (proj1 (proj2 (proj2 (proj2
           (SelectorProperty_validate_grammar sample_str sample_parse)))
           (str "abc.b.[0].c") eq_refl)).
  vm_compute. reflexivity.
Defined.

(** C7 as stated fails: for the type ["a--b"] the identifier that
    [default()] returns is refused by [validate]. *)
Lemma IDProperty_default_refused :
  default (IDProperty (str "a--b")) sample_urandom
  = Ok (PyStr (str "a--b--abababab-abab-4bab-abab-abababababab"))
  /\ validate sample_str sample_parse (IDProperty (str "a--b"))
       (PyStr (str "a--b--abababab-abab-4bab-abab-abababababab"))
     = Raise (ValueError (str "must have a valid version 4 UUID after the prefix.")).
Proof. split; vm_compute; reflexivity. Qed.

(** For the type ["malware"], [default()] and [validate] agree. *)
Lemma IDProperty_default_validates_run :
  contains (str "--") (str "malware") = false
  /\ List.length sample_urandom = 16%nat
  /\ exists n,
       uuid4 sample_urandom = Ok n
       /\ UUID_version n = 4%Z
       /\ UUID_of_hex (UUID___str__ n) None = Ok n
       /\ List.length (UUID___str__ n) = 36%nat
       /\ default (IDProperty (str "malware")) sample_urandom
          = Ok (PyStr (str "malware" ++ str "--" ++ UUID___str__ n))
       /\ validate sample_str sample_parse (IDProperty (str "malware"))
            (PyStr (str "malware" ++ str "--" ++ UUID___str__ n))
          = Ok (PyStr (str "malware" ++ str "--" ++ UUID___str__ n)).
Proof.
  split; [reflexivity|]. split; [reflexivity|].
  apply (@IDProperty_default_validates sample_str sample_parse
           (str "malware") sample_urandom); reflexivity.
Defined.

(** The empty string yields no element, and is refused as the empty list
    is. *)
Lemma ListProperty_validate_never_empty_run :
  contained
    (mk_Property class_ListProperty false None None false None None
       (Some (contained_str sample_str)) None)
  = Some (contained_str sample_str)
  /\ py_iter (PyStr []) = Some []
  /\ ListProperty_validate_items (contained_str sample_str) [] = Ok []
  /\ ListProperty_validate
       (mk_Property class_ListProperty false None None false None None
          (Some (contained_str sample_str)) None)
       (PyStr [])
     = Raise (ValueError (str "must not be empty.")).
Proof.
  split; [reflexivity|]. split; [reflexivity|]. split; [reflexivity|].
  apply (proj1 (proj2 (ListProperty_validate_never_empty sample_str sample_parse))
           _ (contained_str sample_str) (PyStr []) []); reflexivity.
Defined.

(** * Further properties of the module *)

(** ** Definitions for the statements *)

(** [type(v) is dict] *)
Definition is_dict (v : PyValue) : bool :=
  match v with
  | PyDict _ => true
  | _ => false
  end.

(** [isinstance(v, str)] *)
Definition is_str (v : PyValue) : bool :=
  match v with
  | PyStr _ => true
  | _ => false
  end.

(** [isinstance(v, _STIXBase)] *)
Definition is_stix (v : PyValue) : bool :=
  match v with
  | PyStix _ => true
  | _ => false
  end.

(** [contained( **valid)] or [contained(valid)], as [ListProperty.validate]
    chooses between them. *)
Definition contained_wrap (c : Contained) (valid : PyValue) : result PyValue :=
  match valid with
  | PyDict kw => contained_call_kw c kw
  | _ => contained_call c valid
  end.

(** *** The grammar of references, as [REF_REGEX] is written *)

(** Exactly [k] hexadecimal digits. *)
Definition hex_run (k : nat) (g : pystr) : Prop :=
  List.length g = k /\ forallb is_hex g = true.

(** A type token: a lower-case letter, one or more lower-case letters or
    hyphens, a lower-case letter. *)
Definition type_token (ty : pystr) : Prop :=
  exists first middle last,
    ty = first :: middle ++ [last]
    /\ is_lower first = true
    /\ (1 <= List.length middle)%nat /\ forallb lower_or_hyphen middle = true
    /\ is_lower last = true.

(** A UUID in groups of 8, 4, 4, 4 and 12 hexadecimal digits. *)
Definition uuid_text (u : pystr) : Prop :=
  exists a b c d e,
    u = a ++ "-"%char :: b ++ "-"%char :: c ++ "-"%char :: d ++ "-"%char :: e
    /\ hex_run 8 a /\ hex_run 4 b /\ hex_run 4 c /\ hex_run 4 d /\ hex_run 12 e.

(** A type token, two hyphens, a UUID. *)
Definition reference_syntax (s : pystr) : Prop :=
  exists ty u, s = ty ++ "-"%char :: "-"%char :: u /\ type_token ty /\ uuid_text u.

(** The same, or the same before one final newline. *)
Definition up_to_newline (syntax : pystr -> Prop) (s : pystr) : Prop :=
  syntax s \/ exists w, s = w ++ [newline] /\ syntax w.

(** ** Types, strings, booleans and timestamps *)

Lemma pystr_eqb_refl (s : pystr) : pystr_eqb s s = true.
Proof. apply pystr_eqb_eq. reflexivity. Qed.

Lemma py_eq_PyStr (v : PyValue) (t : pystr) :
  py_eq v (PyStr t) = true <-> v = PyStr t.
Proof.
  destruct v; simpl; try (split; [discriminate|discriminate]).
  rewrite pystr_eqb_eq. split; congruence.
Qed.

Section MoreScalarKinds.

Variable builtin_str : PyValue -> pystr.
Variable parser_parse : PyValue -> result datetime.

(** X1: [TypeProperty(type)] with a non-empty [type] accepts the string
    [type] and nothing else: [validate(v)] returns [v] when [v] is that
    string and fails with "must equal '<type>'." for every other value,
    and [default()] is the type.  With the empty string for [type] nothing
    is enforced: every value is returned as it is. *)
Theorem TypeProperty_validate_exact (c : ascii) (t : pystr) (urandom : list byte) :
  (forall v : PyValue,
      validate builtin_str parser_parse (TypeProperty (c :: t)) v
      = if py_eq v (PyStr (c :: t)) then Ok v
        else Raise (ValueError (str "must equal '" ++ (c :: t) ++ str "'.")))
  /\ (forall v r : PyValue,
         validate builtin_str parser_parse (TypeProperty (c :: t)) v = Ok r
         <-> v = PyStr (c :: t) /\ r = PyStr (c :: t))
  /\ default (TypeProperty (c :: t)) urandom = Ok (PyStr (c :: t))
  /\ (forall v : PyValue,
         validate builtin_str parser_parse (TypeProperty []) v = Ok v).
Proof.
  assert (Hv : forall v : PyValue,
             validate builtin_str parser_parse (TypeProperty (c :: t)) v
             = if py_eq v (PyStr (c :: t)) then Ok v
               else Raise (ValueError (str "must equal '" ++ (c :: t) ++ str "'."))).
  { intros v. unfold validate, TypeProperty, Property___init__. cbn.
    unfold Property__default_validate. cbn.
    destruct (py_eq v (PyStr (c :: t))); reflexivity. }
  split; [exact Hv|]. split; [|split; [reflexivity|intros v; reflexivity]].
  intros v r. rewrite Hv. destruct (py_eq v (PyStr (c :: t))) eqn:Heq.
  - apply py_eq_PyStr in Heq. subst v. split.
    + intros H. injection H as <-. split; reflexivity.
    + intros [_ ->]. reflexivity.
  - split; [discriminate|]. intros [-> _].
    assert (Hrefl : py_eq (PyStr (c :: t)) (PyStr (c :: t)) = true)
      by (apply py_eq_PyStr; reflexivity).
    congruence.
Qed.

(** X2: a [Property] built with a [fixed] that is not a true value (absent,
    [None], [""], [0], [False]) enforces nothing: without a [clean] it
    passes every value through unchanged; with a [clean] it returns what
    [clean] returns and raises what [clean] raises, except that a
    [NotImplementedError] of [clean] passes the value through; and
    [default()] is the passed [default], an [AttributeError] when there is
    none. *)
Theorem Property_validate_composition (kw : kwargs) (v : PyValue) (urandom : list byte) :
  py_truthy (kw_fixed kw) = false ->
  validate builtin_str parser_parse (new_Property kw) v
  = match kw_clean kw with
    | None => Ok v
    | Some f =>
        match f v with
        | Raise NotImplementedError => Ok v
        | r => r
        end
    end
  /\ default (new_Property kw) urandom
     = match kw_default kw with
       | Some f => f tt
       | None => Raise AttributeError
       end.
Proof.
  intros Hfixed. destruct kw as [req fixed cl df ty]. simpl in *.
  unfold new_Property, Property___init__. simpl. rewrite Hfixed.
  split.
  - destruct cl as [f|], df as [d|]; unfold validate; simpl;
      unfold Property_validate, clean; simpl; try reflexivity;
      destruct (f v) as [w|[]]; reflexivity.
  - destruct cl, df; reflexivity.
Qed.

(** X3: [StringProperty().validate] never fails: it returns the [str] of
    its input, a string is returned as it is, and validating the result
    again changes nothing. *)
Theorem StringProperty_validate_idempotent (v : PyValue) :
  validate builtin_str parser_parse (StringProperty no_kwargs) v
  = Ok (PyStr (py_str builtin_str v))
  /\ (forall s : pystr,
         validate builtin_str parser_parse (StringProperty no_kwargs) (PyStr s)
         = Ok (PyStr s))
  /\ bind (validate builtin_str parser_parse (StringProperty no_kwargs) v)
          (validate builtin_str parser_parse (StringProperty no_kwargs))
     = validate builtin_str parser_parse (StringProperty no_kwargs) v.
Proof.
  split; [reflexivity|]. split; [reflexivity|]. reflexivity.
Qed.

Lemma BooleanProperty_validate_cases (v : PyValue) :
  match v with
  | PyStix _ =>
      validate builtin_str parser_parse (BooleanProperty no_kwargs) v = Raise TypeError
  | _ =>
      (exists b, validate builtin_str parser_parse (BooleanProperty no_kwargs) v
                 = Ok (PyBool b))
      \/ validate builtin_str parser_parse (BooleanProperty no_kwargs) v
         = Raise (ValueError (str "must be a boolean value."))
  end.
Proof.
  unfold validate, BooleanProperty_validate, clean, BooleanProperty_clean.
  destruct v; simpl; repeat case_if;
    first [reflexivity | right; reflexivity | left; eexists; reflexivity].
Qed.

(** X4: on every value that is not a STIX object [BooleanProperty().validate]
    either returns a [bool] or fails with "must be a boolean value."; no
    other error and no other kind of value comes out.  On a STIX object it
    raises [TypeError]: the object answers [lower] with a value that cannot
    be called.  A [bool] is returned as it is, so validating a result again
    changes nothing, and among the integers only [0] and [1] are
    accepted. *)
Theorem BooleanProperty_validate_outcomes :
  (forall v : PyValue,
      match v with
      | PyStix _ =>
          validate builtin_str parser_parse (BooleanProperty no_kwargs) v = Raise TypeError
      | _ =>
          (exists b, validate builtin_str parser_parse (BooleanProperty no_kwargs) v
                     = Ok (PyBool b))
          \/ validate builtin_str parser_parse (BooleanProperty no_kwargs) v
             = Raise (ValueError (str "must be a boolean value."))
      end)
  /\ (forall v : PyValue,
         bind (validate builtin_str parser_parse (BooleanProperty no_kwargs) v)
              (validate builtin_str parser_parse (BooleanProperty no_kwargs))
         = validate builtin_str parser_parse (BooleanProperty no_kwargs) v)
  /\ (forall n : Z,
         validate builtin_str parser_parse (BooleanProperty no_kwargs) (PyInt n)
         = if (n =? 1)%Z then Ok (PyBool true)
           else if (n =? 0)%Z then Ok (PyBool false)
           else Raise (ValueError (str "must be a boolean value."))).
Proof.
  split; [exact BooleanProperty_validate_cases|]. split.
  - intros v. pose proof (BooleanProperty_validate_cases v) as H.
    destruct v; try (rewrite H; reflexivity);
      destruct H as [[r Hr] | He];
      first [rewrite Hr; reflexivity | rewrite He; reflexivity].
  - intros n. unfold validate, BooleanProperty_validate, clean, BooleanProperty_clean.
    simpl. repeat case_if; reflexivity.
Qed.

(** X5: whatever [TimestampProperty().validate] returns is a datetime
    object, which it returns unchanged when given it again: validating a
    validated timestamp changes nothing. *)
Theorem TimestampProperty_validate_idempotent (v r : PyValue) :
  validate builtin_str parser_parse (TimestampProperty no_kwargs) v = Ok r ->
  (exists d, r = PyDateTime d)
  /\ validate builtin_str parser_parse (TimestampProperty no_kwargs) r = Ok r.
Proof.
  intros H.
  assert (Hd : exists d, r = PyDateTime d).
  { destruct (isinstance_date v) eqn:Hv.
    - destruct v; simpl in Hv; try discriminate Hv.
      + injection H as <-. eexists. reflexivity.
      + injection H as <-. eexists. reflexivity.
    - destruct (@TimestampProperty_validate_utc parser_parse
                  (TimestampProperty no_kwargs) v r Hv H) as (d & -> & _).
      eexists. reflexivity. }
  split; [exact Hd|]. destruct Hd as [d ->]. reflexivity.
Qed.

(** X6: when the input of [TimestampProperty().validate] is neither a date
    nor a datetime and the parser raises, only a [TypeError] is turned
    into "must be a datetime object, date object, or timestamp string in a
    recognizable format."; any other exception of the parser, as its
    [ValueError] for a string it does not recognise, comes out as the
    parser raised it. *)
Theorem TimestampProperty_validate_parse_errors (v : PyValue) (e : exn) :
  isinstance_date v = false ->
  parser_parse v = Raise e ->
  validate builtin_str parser_parse (TimestampProperty no_kwargs) v
  = Raise (match e with
           | TypeError =>
               ValueError (str "must be a datetime object, date object, or timestamp string in a recognizable format.")
           | _ => e
           end).
Proof.
  intros Hv He. unfold validate. simpl. unfold TimestampProperty_validate.
  rewrite He. destruct v; simpl in Hv; try discriminate Hv; destruct e; reflexivity.
Qed.

End MoreScalarKinds.

(** ** Identifiers and lists *)

Lemma filter_hex_of_hyphenated (x : pystr) :
  forallb hex_or_hyphen x = true ->
  filter (fun c => negb (Ascii.eqb "-" c)) x = filter is_hex x.
Proof.
  induction x as [|c x IH]; intros H; [reflexivity|].
  simpl in H. apply andb_true_iff in H as [Hc Hx]. cbn [filter].
  rewrite (IH Hx). unfold hex_or_hyphen in Hc.
  destruct (is_hex c) eqn:Hhex.
  - apply is_hex_char_facts in Hhex.
    destruct Hhex as (_ & _ & _ & _ & _ & _ & _ & _ & Hdash & _).
    rewrite Hdash. reflexivity.
  - simpl in Hc. apply Ascii.eqb_eq in Hc. subst c. reflexivity.
Qed.

Lemma forallb_filter_same (p : ascii -> bool) (x : pystr) :
  forallb p (filter p x) = true.
Proof.
  induction x as [|c x IH]; [reflexivity|]. cbn [filter].
  destruct (p c) eqn:Hc; [|exact IH]. cbn [forallb]. rewrite Hc. exact IH.
Qed.

Section MoreIdentifierKinds.

Variable builtin_str : PyValue -> pystr.
Variable parser_parse : PyValue -> result datetime.

(** A suffix of hexadecimal digits and hyphens with 32 digits in all is
    taken by [IDProperty.validate] after the prefix. *)
Lemma IDProperty_validate_hyphenated (t x : pystr) :
  contains (str "--") t = false ->
  forallb hex_or_hyphen x = true ->
  List.length (filter is_hex x) = 32%nat ->
  validate builtin_str parser_parse (IDProperty t) (PyStr (t ++ str "--" ++ x))
  = Ok (PyStr (t ++ str "--" ++ x)).
Proof.
  intros Ht Hx Hlen.
  assert (Hsuffix : forall y,
             forallb hex_or_hyphen y = true ->
             filter is_hex y = filter is_hex x ->
             exists m, UUID_of_hex y (Some 4%Z) = Ok m).
  { intros y Hy Hfy.
    destruct (@UUID_of_hex_hyphenated y (filter is_hex x)) as (v & _ & Hv & Hof).
    - exact Hy.
    - rewrite (filter_hex_of_hyphenated _ Hy). exact Hfy.
    - exact Hlen.
    - apply forallb_filter_same.
    - destruct (@UUID_finish_version v 4 Hv ltac:(lia)) as (m & Hm & _).
      exists m. rewrite Hof. exact Hm. }
  destruct (@split1_after_prefix t x Ht) as (before & [Hs | Hs]).
  - destruct (Hsuffix x Hx eq_refl) as (m & Hm).
    apply (@IDProperty_validate_suffix builtin_str parser_parse t _ x m).
    + rewrite app_assoc. apply startswith_app.
    + rewrite Hs. reflexivity.
    + exact Hm.
  - destruct (Hsuffix ("-"%char :: x)) as (m & Hm).
    + cbn [forallb]. rewrite Hx. reflexivity.
    + reflexivity.
    + apply (@IDProperty_validate_suffix builtin_str parser_parse t _ ("-"%char :: x) m).
      * rewrite app_assoc. apply startswith_app.
      * rewrite Hs. reflexivity.
      * exact Hm.
Qed.

(** X7: [IDProperty(t).validate] has three outcomes on a string.  A string
    without the prefix [t + "--"] fails with "must start with
    '<prefix>'."; a string with it is returned unchanged or fails with
    "must have a valid version 4 UUID after the prefix.".  A value that is
    no string does not raise [ValueError]: a STIX object raises
    [TypeError], as the call of what it answers for [startswith] fails, and
    any other value, having no [startswith], raises [AttributeError]. *)
Theorem IDProperty_validate_outcomes (t : pystr) (v : PyValue) :
  match v with
  | PyStr s =>
      if startswith s (t ++ str "--") then
        validate builtin_str parser_parse (IDProperty t) v = Ok v
        \/ validate builtin_str parser_parse (IDProperty t) v
           = Raise (ValueError (str "must have a valid version 4 UUID after the prefix."))
      else
        validate builtin_str parser_parse (IDProperty t) v
        = Raise (ValueError (str "must start with '" ++ (t ++ str "--") ++ str "'."))
  | PyStix _ => validate builtin_str parser_parse (IDProperty t) v = Raise TypeError
  | _ => validate builtin_str parser_parse (IDProperty t) v = Raise AttributeError
  end.
Proof.
  rewrite validate_IDProperty. unfold IDProperty_validate.
  rewrite required_prefix_IDProperty.
  destruct v; try reflexivity.
  cbn [method_startswith bind].
  destruct (startswith s (t ++ str "--")); [|reflexivity].
  cbn [negb].
  destruct (nth_error (split1 (str "--") s) 1) as [suffix|]; [|right; reflexivity].
  destruct (UUID_of_hex suffix (Some 4%Z)); [left|right]; reflexivity.
Qed.

(** X8: after the prefix of a type [t] without ["--"],
    [IDProperty(t).validate] takes every writing of 32 hexadecimal digits,
    in either case and with hyphens anywhere or nowhere; in particular it
    takes the text of every 128-bit UUID, whatever its version field. *)
Theorem IDProperty_validate_any_hyphenation (t : pystr) :
  contains (str "--") t = false ->
  (forall x : pystr,
      forallb hex_or_hyphen x = true ->
      List.length (filter is_hex x) = 32%nat ->
      validate builtin_str parser_parse (IDProperty t) (PyStr (t ++ str "--" ++ x))
      = Ok (PyStr (t ++ str "--" ++ x)))
  /\ (forall n : Z,
         (0 <= n < 2 ^ 128)%Z ->
         validate builtin_str parser_parse (IDProperty t)
           (PyStr (t ++ str "--" ++ UUID___str__ n))
         = Ok (PyStr (t ++ str "--" ++ UUID___str__ n))).
Proof.
  intros Ht. split.
  - intros x Hx Hlen. apply IDProperty_validate_hyphenated; assumption.
  - intros n Hn.
    destruct (@UUID___str___shape n Hn) as (Hchars & Hfilter & _ & _).
    destruct (@format_032x_shape n Hn) as [Hlen32 _].
    apply IDProperty_validate_hyphenated; [exact Ht|exact Hchars|].
    rewrite <- (filter_hex_of_hyphenated _ Hchars), Hfilter. exact Hlen32.
Qed.

End MoreIdentifierKinds.

Section MoreLists.

Variable builtin_str : PyValue -> pystr.
Variable parser_parse : PyValue -> result datetime.

(** What one element of the input becomes: the element validated, or the
    element itself when its validation raised [AttributeError], then
    wrapped. *)
Definition element_result (c : Contained) (item w : PyValue) : Prop :=
  exists valid,
    (contained_validate c item = Ok valid
     \/ (contained_validate c item = Raise AttributeError /\ valid = item))
    /\ contained_wrap c valid = Ok w.

Lemma ListProperty_validate_items_spec (c : Contained) (items result : list PyValue) :
  ListProperty_validate_items c items = Ok result
  <-> Forall2 (element_result c) items result.
Proof.
  revert result. induction items as [|item items IH]; intros result.
  - simpl. split.
    + intros H. injection H as <-. constructor.
    + intros H. inversion H. reflexivity.
  - cbn [ListProperty_validate_items]. split.
    + intros H.
      destruct (contained_validate c item) as [valid|e] eqn:Hval.
      * cbn [bind] in H. fold (contained_wrap c valid) in H.
        destruct (contained_wrap c valid) as [w|e] eqn:Hw; [|discriminate H].
        cbn [bind] in H.
        destruct (ListProperty_validate_items c items) as [rest|e] eqn:Hrest;
          [|discriminate H].
        cbn [bind] in H. injection H as <-. constructor.
        -- exists valid. split; [left; exact Hval|exact Hw].
        -- apply IH. reflexivity.
      * destruct e; try discriminate H.
        cbn [bind] in H. fold (contained_wrap c item) in H.
        destruct (contained_wrap c item) as [w|e] eqn:Hw; [|discriminate H].
        cbn [bind] in H.
        destruct (ListProperty_validate_items c items) as [rest|e] eqn:Hrest;
          [|discriminate H].
        cbn [bind] in H. injection H as <-. constructor.
        -- exists item. split; [right; split; [exact Hval|reflexivity]|exact Hw].
        -- apply IH. reflexivity.
    + intros H. inversion H as [|? w ? rest (valid & Hval & Hw) Hrest]; subst.
      apply IH in Hrest. rewrite Hrest.
      destruct Hval as [Hval | [Hval ->]]; rewrite Hval.
      * cbn [bind]. fold (contained_wrap c valid). rewrite Hw. reflexivity.
      * cbn [bind]. fold (contained_wrap c item). rewrite Hw. reflexivity.
Qed.

(** X9: [ListProperty.validate] works element by element and keeps the
    order: it returns a list exactly when the input is iterable and not
    empty and every element, validated (or taken as it is when its
    validation raised [AttributeError]) and wrapped, gives the element of
    the result at the same place; the result is as long as the input. *)
Theorem ListProperty_validate_elementwise (self : Property) (value out : PyValue) :
  ListProperty_validate self value = Ok out
  <-> exists c items result,
        contained self = Some c /\ py_iter value = Some items
        /\ out = PyList result /\ (1 <= List.length result)%nat
        /\ List.length result = List.length items
        /\ Forall2 (element_result c) items result.
Proof.
  unfold ListProperty_validate. split.
  - intros H. destruct (py_iter value) as [items|]; [|discriminate H].
    destruct (contained self) as [c|]; [|discriminate H].
    destruct (ListProperty_validate_items c items) as [result|e] eqn:Hitems;
      [|discriminate H].
    cbn [bind] in H.
    destruct (List.length result <? 1)%nat eqn:Hlen; [discriminate H|].
    injection H as <-. apply Nat.ltb_ge in Hlen.
    apply ListProperty_validate_items_spec in Hitems.
    exists c, items, result. repeat split; try assumption; try reflexivity.
    symmetry. apply (Forall2_length Hitems).
  - intros (c & items & result & -> & -> & -> & Hlen & _ & Hitems).
    apply ListProperty_validate_items_spec in Hitems. rewrite Hitems.
    cbn [bind]. apply Nat.ltb_ge in Hlen. rewrite Hlen. reflexivity.
Qed.

Lemma ListProperty_validate_items_first_error
  (c : Contained) (before after done : list PyValue) (item : PyValue) (e : exn) :
  ListProperty_validate_items c before = Ok done ->
  contained_validate c item = Raise e ->
  e <> AttributeError ->
  ListProperty_validate_items c (before ++ item :: after) = Raise e.
Proof.
  revert done. induction before as [|b before IH]; intros done Hbefore Hitem He.
  - cbn [app ListProperty_validate_items]. rewrite Hitem.
    destruct e; try reflexivity. congruence.
  - cbn [app ListProperty_validate_items] in *.
    destruct (match contained_validate c b with
              | Raise AttributeError => Ok b
              | r => r
              end) as [valid|e']; [|discriminate Hbefore].
    cbn [bind] in *.
    destruct (match valid with
              | PyDict kw => contained_call_kw c kw
              | _ => contained_call c valid
              end) as [w|e']; [|discriminate Hbefore].
    cbn [bind] in *.
    destruct (ListProperty_validate_items c before) as [rest|e'] eqn:Hrest;
      [|discriminate Hbefore].
    rewrite (IH rest eq_refl Hitem He). reflexivity.
Qed.

(** X10: [ListProperty.validate] stops at the first element whose
    validation raises anything but [AttributeError]: when the elements
    before it pass, the call raises that very exception, whatever the
    elements after it are; no partial list is returned. *)
Theorem ListProperty_validate_fail_fast
  (self : Property) (c : Contained) (value : PyValue)
  (before after done : list PyValue) (item : PyValue) (e : exn) :
  contained self = Some c ->
  py_iter value = Some (before ++ item :: after) ->
  ListProperty_validate_items c before = Ok done ->
  contained_validate c item = Raise e ->
  e <> AttributeError ->
  ListProperty_validate self value = Raise e.
Proof.
  intros Hc Hiter Hbefore Hitem He. unfold ListProperty_validate.
  rewrite Hiter, Hc.
  rewrite (@ListProperty_validate_items_first_error c before after done item e
             Hbefore Hitem He).
  reflexivity.
Qed.

(** The loop over a type without [validate]: each element that is no
    [dict] is converted by a call of the type. *)
Lemma ListProperty_validate_items_type (c : Contained) (f : PyValue -> PyValue)
  (items : list PyValue) :
  (forall v, contained_validate c v = Raise AttributeError) ->
  (forall v, contained_call c v = Ok (f v)) ->
  forallb (fun v => negb (is_dict v)) items = true ->
  ListProperty_validate_items c items = Ok (map f items).
Proof.
  intros Hval Hcall. induction items as [|item items IH]; intros Hitems.
  - reflexivity.
  - cbn [forallb] in Hitems. apply andb_true_iff in Hitems as [Hitem Hrest].
    cbn [ListProperty_validate_items map]. rewrite Hval. cbn [bind].
    rewrite (IH Hrest).
    destruct item; try discriminate Hitem; rewrite Hcall; reflexivity.
Qed.

(** X11: [ListProperty(StringProperty)] holds the type [str], so it
    converts every element that is no [dict] with [str]; a list of
    elements, none a [dict], becomes the list of their strings, and a bare
    string, being iterable, becomes the list of its characters. *)
Theorem ListProperty_of_StringProperty (items : list PyValue) (s : pystr) :
  forallb (fun v => negb (is_dict v)) items = true ->
  validate_of builtin_str parser_parse
    (ListProperty builtin_str parser_parse (ArgClass class_StringProperty) no_kwargs)
    (PyList items)
  = match items with
    | [] => Raise (ValueError (str "must not be empty."))
    | _ => Ok (PyList (map (fun v => PyStr (py_str builtin_str v)) items))
    end
  /\ validate_of builtin_str parser_parse
       (ListProperty builtin_str parser_parse (ArgClass class_StringProperty) no_kwargs)
       (PyStr s)
     = match s with
       | [] => Raise (ValueError (str "must not be empty."))
       | _ => Ok (PyList (map (fun ch => PyStr [ch]) s))
       end.
Proof.
  intros Hitems.
  assert (Hrun : forall xs,
             forallb (fun v => negb (is_dict v)) xs = true ->
             ListProperty_validate_items (contained_str builtin_str) xs
             = Ok (map (fun v => PyStr (py_str builtin_str v)) xs)).
  { intros xs Hxs. apply ListProperty_validate_items_type;
      [reflexivity|reflexivity|exact Hxs]. }
  split.
  - unfold validate_of, ListProperty. cbn [bind]. unfold validate. cbn.
    unfold ListProperty_validate. cbn. rewrite (Hrun items Hitems). cbn [bind].
    destruct items; reflexivity.
  - unfold validate_of, ListProperty. cbn [bind]. unfold validate. cbn.
    unfold ListProperty_validate. cbn. rewrite Hrun.
    + cbn [bind]. rewrite map_map. destruct s; reflexivity.
    + clear. induction s as [|ch s IH]; [reflexivity|exact IH].
Qed.

(** X12: [ListProperty(BooleanProperty)], given the class, holds the type
    [bool]: every element that is no [dict] is converted by its truth
    value, not by [BooleanProperty]'s rules, so the non-empty string
    ["false"], which [BooleanProperty().validate] reads as [False], comes
    out as [True]. *)
Theorem ListProperty_of_BooleanProperty_class (items : list PyValue) :
  forallb (fun v => negb (is_dict v)) items = true ->
  validate_of builtin_str parser_parse
    (ListProperty builtin_str parser_parse (ArgClass class_BooleanProperty) no_kwargs)
    (PyList items)
  = match items with
    | [] => Raise (ValueError (str "must not be empty."))
    | _ => Ok (PyList (map (fun v => PyBool (py_truthy v)) items))
    end
  /\ validate_of builtin_str parser_parse
       (ListProperty builtin_str parser_parse (ArgClass class_BooleanProperty) no_kwargs)
       (PyList [PyStr (str "false")])
     = Ok (PyList [PyBool true])
  /\ validate builtin_str parser_parse (BooleanProperty no_kwargs) (PyStr (str "false"))
     = Ok (PyBool false).
Proof.
  intros Hitems. split; [|split; reflexivity].
  unfold validate_of, ListProperty. cbn [bind]. unfold validate. cbn.
  unfold ListProperty_validate. cbn.
  rewrite (@ListProperty_validate_items_type contained_bool
             (fun v => PyBool (py_truthy v)) items);
    [|reflexivity|reflexivity|exact Hitems].
  cbn [bind]. destruct items; reflexivity.
Qed.

(** X13: an element whose validation raises [AttributeError] is taken as
    valid: [ListProperty(IDProperty(t))], given the property object,
    returns unchanged every non-empty list whose elements are neither
    strings, [dict]s nor STIX objects, although [IDProperty(t).validate]
    accepts none of them.  A STIX object is not such an element: its
    validation raises [TypeError], which ends the list's validation. *)
Theorem ListProperty_of_IDProperty_skips_non_strings (t : pystr) (items : list PyValue) :
  forallb (fun v => negb (is_str v) && negb (is_dict v) && negb (is_stix v)) items = true ->
  validate_of builtin_str parser_parse
    (ListProperty builtin_str parser_parse (ArgInstance (IDProperty t)) no_kwargs)
    (PyList items)
  = match items with
    | [] => Raise (ValueError (str "must not be empty."))
    | _ => Ok (PyList items)
    end
  /\ Forall (fun v => validate builtin_str parser_parse (IDProperty t) v
                      = Raise AttributeError) items
  /\ (forall (props : list (pystr * PyValue)) (rest : list PyValue),
         validate_of builtin_str parser_parse
           (ListProperty builtin_str parser_parse (ArgInstance (IDProperty t)) no_kwargs)
           (PyList (items ++ PyStix props :: rest))
         = Raise TypeError).
Proof.
  intros Hitems.
  assert (Hone : forall v, negb (is_str v) && negb (is_dict v) && negb (is_stix v) = true ->
                           validate builtin_str parser_parse (IDProperty t) v
                           = Raise AttributeError).
  { intros v Hv. rewrite validate_IDProperty. unfold IDProperty_validate.
    rewrite required_prefix_IDProperty.
    destruct v; try reflexivity; discriminate Hv. }
  assert (Hrun : ListProperty_validate_items
                   (contained_instance builtin_str parser_parse (IDProperty t)) items
                 = Ok items).
  { induction items as [|item items IH]; [reflexivity|].
    cbn [forallb] in Hitems. apply andb_true_iff in Hitems as [Hitem Hrest].
    cbn [ListProperty_validate_items contained_instance contained_validate
           contained_call contained_call_kw].
    rewrite (Hone item Hitem). cbn [bind]. rewrite (IH Hrest).
    destruct item; try discriminate Hitem; reflexivity. }
  assert (Hobject : forall props rest,
             ListProperty_validate_items
               (contained_instance builtin_str parser_parse (IDProperty t))
               (items ++ PyStix props :: rest)
             = Raise TypeError).
  { intros props rest. clear Hrun.
    induction items as [|item items IH].
    - cbn [app ListProperty_validate_items contained_instance contained_validate].
      rewrite validate_IDProperty. unfold IDProperty_validate.
      rewrite required_prefix_IDProperty. reflexivity.
    - cbn [forallb] in Hitems. apply andb_true_iff in Hitems as [Hitem Hrest].
      cbn [app ListProperty_validate_items contained_instance contained_validate
             contained_call contained_call_kw].
      rewrite (Hone item Hitem). cbn [bind]. rewrite (IH Hrest).
      destruct item; try discriminate Hitem; reflexivity. }
  split; [|split].
  - unfold validate_of, ListProperty. cbn [bind]. unfold validate. cbn.
    unfold ListProperty_validate. cbn.
    change (ListProperty_validate_items _ items)
      with (ListProperty_validate_items
              (contained_instance builtin_str parser_parse (IDProperty t)) items).
    rewrite Hrun. cbn [bind]. destruct items; reflexivity.
  - apply Forall_forall. intros v Hin. apply Hone.
    rewrite forallb_forall in Hitems. apply Hitems. exact Hin.
  - intros props rest.
    unfold validate_of, ListProperty. cbn [bind]. unfold validate. cbn.
    unfold ListProperty_validate. cbn.
    change (ListProperty_validate_items _ (items ++ PyStix props :: rest))
      with (ListProperty_validate_items
              (contained_instance builtin_str parser_parse (IDProperty t))
              (items ++ PyStix props :: rest)).
    rewrite Hobject. reflexivity.
Qed.

(** The loop over a property object whose [validate] returns [f] of the
    element, never a [dict]. *)
Lemma ListProperty_validate_items_instance (c : Contained) (f : PyValue -> PyValue)
  (items : list PyValue) :
  (forall v, contained_validate c v = Ok (f v)) ->
  (forall v, is_dict (f v) = false) ->
  (forall v, contained_call c v = Ok v) ->
  ListProperty_validate_items c items = Ok (map f items).
Proof.
  intros Hval Hf Hcall. induction items as [|item items IH]; [reflexivity|].
  cbn [ListProperty_validate_items map]. rewrite Hval. cbn [bind]. rewrite IH.
  specialize (Hf item). destruct (f item); try discriminate Hf;
    rewrite Hcall; reflexivity.
Qed.

(** X19: [ListProperty(StringProperty())], given the property object,
    returns for every non-empty list the list of the [str] of its
    elements, [dict]s included; so it agrees with
    [ListProperty(StringProperty)], given the class, on the lists that hold
    no [dict]. *)
Theorem ListProperty_of_StringProperty_instance (items : list PyValue) :
  validate_of builtin_str parser_parse
    (ListProperty builtin_str parser_parse
       (ArgInstance (StringProperty no_kwargs)) no_kwargs)
    (PyList items)
  = match items with
    | [] => Raise (ValueError (str "must not be empty."))
    | _ => Ok (PyList (map (fun v => PyStr (py_str builtin_str v)) items))
    end.
Proof.
  unfold validate_of, ListProperty. cbn [bind]. unfold validate at 1. cbn.
  unfold ListProperty_validate. cbn.
  change (ListProperty_validate_items _ items)
    with (ListProperty_validate_items
            (contained_instance builtin_str parser_parse (StringProperty no_kwargs))
            items).
  rewrite (@ListProperty_validate_items_instance
             (contained_instance builtin_str parser_parse (StringProperty no_kwargs))
             (fun v => PyStr (py_str builtin_str v)) items);
    [|reflexivity|reflexivity|reflexivity].
  cbn [bind]. destruct items; reflexivity.
Qed.

End MoreLists.

(** ** References and selectors *)

Lemma lang_Cat (r1 r2 : regex) (s : pystr) :
  lang (Cat r1 r2) s <-> exists s1 s2, s = s1 ++ s2 /\ lang r1 s1 /\ lang r2 s2.
Proof. reflexivity. Qed.

Lemma lang_Set (p : ascii -> bool) (s : pystr) :
  lang (Set_ p) s <-> exists c, s = [c] /\ p c = true.
Proof. reflexivity. Qed.

Lemma lang_exactly (p : ascii -> bool) (k : nat) (s : pystr) :
  lang (exactly k (Set_ p)) s <-> List.length s = k /\ forallb p s = true.
Proof.
  unfold exactly. rewrite lang_bounded_Set. unfold chars_of. split.
  - intros [Hlen Hp]. split; [lia|exact Hp].
  - intros [Hlen Hp]. split; [lia|exact Hp].
Qed.

(** A match up to [$] is a word of the pattern, or one before a final
    newline. *)
Lemma match_to_dollar_spec (r : regex) (s : pystr) :
  match_to_dollar r s = true <-> up_to_newline (lang r) s.
Proof.
  unfold match_to_dollar, up_to_newline.
  rewrite orb_true_iff, matches_spec. split.
  - intros [H | H]; [left; exact H|right].
    destruct (rev s) as [|c before] eqn:Hrev; [discriminate H|].
    apply andb_true_iff in H as [Hc Hm]. apply Ascii.eqb_eq in Hc. subst c.
    exists (rev before). split; [|apply matches_spec; exact Hm].
    rewrite <- (rev_involutive s), Hrev. reflexivity.
  - intros [H | (w & -> & H)]; [left; exact H|right].
    rewrite rev_app_distr. cbn [rev app]. rewrite ascii_eqb_refl, rev_involutive.
    apply matches_spec. exact H.
Qed.

Ltac split_cat H s1 H1 :=
  apply lang_Cat in H; destruct H as (s1 & ? & -> & H1 & H).

Ltac lit_eq H := apply lang_Lit in H; subst.

(** What [REF_REGEX] stands for is the grammar of references. *)
Theorem lang_REF_REGEX (s : pystr) : lang REF_REGEX s <-> reference_syntax s.
Proof.
  unfold REF_REGEX, reference_syntax, type_token, uuid_text, hex_run. split.
  - intros H.
    split_cat H p0 Hfirst. split_cat H middle Hmiddle. split_cat H p1 Hlast.
    split_cat H h1 Hh1. split_cat H h2 Hh2.
    split_cat H a Ha. split_cat H d1 Hd1. split_cat H b Hb. split_cat H d2 Hd2.
    split_cat H c Hc. split_cat H d3 Hd3. split_cat H d Hd. split_cat H d4 Hd4.
    lit_eq Hh1. lit_eq Hh2. lit_eq Hd1. lit_eq Hd2. lit_eq Hd3. lit_eq Hd4.
    apply lang_Set in Hfirst as (cf & -> & Hcf).
    apply lang_Set in Hlast as (cl & -> & Hcl).
    apply lang_Repeat_Set in Hmiddle as (Hmlen & _ & Hmid).
    apply lang_exactly in Ha, Hb, Hc, Hd, H.
    exists (cf :: middle ++ [cl]).
    exists (a ++ "-"%char :: b ++ "-"%char :: c ++ "-"%char :: d ++ "-"%char :: x).
    split.
    + cbn [app]. rewrite <- app_assoc. reflexivity.
    + split.
      * exists cf, middle, cl. repeat split; assumption.
      * exists a, b, c, d, x. split; [reflexivity|]. tauto.
  - intros (ty & u & -> & (cf & middle & cl & -> & Hcf & Hmlen & Hmid & Hcl)
            & (a & b & c & d & e & -> & Ha & Hb & Hc & Hd & He)).
    set (u4 := e). set (u3 := d ++ "-"%char :: u4). set (u2 := c ++ "-"%char :: u3).
    set (u1 := b ++ "-"%char :: u2). set (u0 := a ++ "-"%char :: u1).
    replace ((cf :: middle ++ [cl]) ++ "-"%char :: "-"%char :: u0)
      with ([cf] ++ middle ++ [cl] ++ ["-"%char] ++ ["-"%char] ++ u0)
      by (cbn [app]; rewrite <- app_assoc; reflexivity).
    apply lang_Cat. exists [cf], (middle ++ [cl] ++ ["-"%char] ++ ["-"%char] ++ u0).
    split; [reflexivity|]. split.
    { exists cf. split; [reflexivity|exact Hcf]. }
    apply lang_Cat. exists middle, ([cl] ++ ["-"%char] ++ ["-"%char] ++ u0).
    split; [reflexivity|]. split.
    { apply lang_Repeat_Set. repeat split; assumption. }
    apply lang_Cat. exists [cl], (["-"%char] ++ ["-"%char] ++ u0).
    split; [reflexivity|]. split.
    { exists cl. split; [reflexivity|exact Hcl]. }
    apply lang_Cat. exists ["-"%char], (["-"%char] ++ u0).
    split; [reflexivity|]. split.
    { apply lang_Lit. reflexivity. }
    apply lang_Cat. exists ["-"%char], u0. split; [reflexivity|]. split.
    { apply lang_Lit. reflexivity. }
    apply lang_Cat. exists a, (["-"%char] ++ u1). split; [reflexivity|]. split.
    { apply lang_exactly. exact Ha. }
    apply lang_Cat. exists ["-"%char], u1. split; [reflexivity|]. split.
    { apply lang_Lit. reflexivity. }
    apply lang_Cat. exists b, (["-"%char] ++ u2). split; [reflexivity|]. split.
    { apply lang_exactly. exact Hb. }
    apply lang_Cat. exists ["-"%char], u2. split; [reflexivity|]. split.
    { apply lang_Lit. reflexivity. }
    apply lang_Cat. exists c, (["-"%char] ++ u3). split; [reflexivity|]. split.
    { apply lang_exactly. exact Hc. }
    apply lang_Cat. exists ["-"%char], u3. split; [reflexivity|]. split.
    { apply lang_Lit. reflexivity. }
    apply lang_Cat. exists d, (["-"%char] ++ u4). split; [reflexivity|]. split.
    { apply lang_exactly. exact Hd. }
    apply lang_Cat. exists ["-"%char], u4. split; [reflexivity|]. split.
    { apply lang_Lit. reflexivity. }
    apply lang_exactly. exact He.
Qed.

Lemma up_to_newline_iff (P Q : pystr -> Prop) (s : pystr) :
  (forall w, P w <-> Q w) -> (up_to_newline P s <-> up_to_newline Q s).
Proof.
  intros H. unfold up_to_newline. split.
  - intros [Hs | (w & -> & Hw)]; [left; apply H; exact Hs|right].
    exists w. split; [reflexivity|apply H; exact Hw].
  - intros [Hs | (w & -> & Hw)]; [left; apply H; exact Hs|right].
    exists w. split; [reflexivity|apply H; exact Hw].
Qed.

Lemma uuid_text_UUID___str__ (n : Z) :
  (0 <= n < 2 ^ 128)%Z -> uuid_text (UUID___str__ n).
Proof.
  intros Hn. destruct (@format_032x_shape n Hn) as [Hlen Hhex].
  unfold UUID___str__, uuid_text, hex_run. set (h := format_032x n) in *.
  exists (firstn 8 h), (firstn 4 (skipn 8 h)), (firstn 4 (skipn 12 h)),
    (firstn 4 (skipn 16 h)), (skipn 20 h).
  split; [reflexivity|].
  rewrite !length_firstn, !length_skipn, Hlen.
  repeat split; try reflexivity;
    repeat first [apply forallb_firstn | apply forallb_skipn]; exact Hhex.
Qed.

Section MoreReferences.

Variable builtin_str : PyValue -> pystr.
Variable parser_parse : PyValue -> result datetime.

(** Whether the identifier starts with the configured type; no type, or
    an empty one, asks for nothing. *)
Definition starts_with_type (ty : option pystr) (s : pystr) : bool :=
  match ty with
  | Some (c :: t) => startswith s (c :: t)
  | _ => true
  end.

Lemma ReferenceProperty_validate_str (required : bool) (ty : option pystr) (s : pystr) :
  validate builtin_str parser_parse (ReferenceProperty required ty) (PyStr s)
  = if starts_with_type ty s then
      if match_to_dollar REF_REGEX s then Ok (PyStr s)
      else Raise (ValueError (str "must match <object-type>--<guid>."))
    else
      Raise (ValueError (str "must start with '" ++ match ty with
                                                    | Some t => t
                                                    | None => []
                                                    end ++ str "'.")).
Proof.
  unfold validate, ReferenceProperty, Property___init__.
  cbn -[startswith match_to_dollar].
  unfold ReferenceProperty_validate. cbn -[startswith match_to_dollar].
  destruct ty as [[|c t]|]; cbn -[startswith match_to_dollar].
  - destruct (match_to_dollar REF_REGEX s); reflexivity.
  - destruct (startswith s (c :: t)); cbn -[startswith match_to_dollar].
    + destruct (match_to_dollar REF_REGEX s); reflexivity.
    + reflexivity.
  - destruct (match_to_dollar REF_REGEX s); reflexivity.
Qed.

Lemma validate_ReferenceProperty (required : bool) (ty : option pystr) (v : PyValue) :
  validate builtin_str parser_parse (ReferenceProperty required ty) v
  = ReferenceProperty_validate (ReferenceProperty required ty) v.
Proof. reflexivity. Qed.

Lemma type_ReferenceProperty (required : bool) (ty : option pystr) :
  type (ReferenceProperty required ty) = ty.
Proof. reflexivity. Qed.

Lemma ReferenceProperty_validate_object
  (required : bool) (ty : option pystr) (props : list (pystr * PyValue)) (s : pystr) :
  lookup (str "id") props = Some (PyStr s) ->
  validate builtin_str parser_parse (ReferenceProperty required ty) (PyStix props)
  = validate builtin_str parser_parse (ReferenceProperty required ty) (PyStr s).
Proof.
  intros Hid. rewrite !validate_ReferenceProperty. unfold ReferenceProperty_validate.
  unfold attr_id, stix_getattr. rewrite Hid. reflexivity.
Qed.

(** What is no string never passes the checks that follow the reading of
    [id]. *)
Lemma ReferenceProperty_validate_strings_only
  (required : bool) (ty : option pystr) (v r : PyValue) :
  validate builtin_str parser_parse (ReferenceProperty required ty) v = Ok r ->
  exists s, r = PyStr s.
Proof.
  rewrite validate_ReferenceProperty. unfold ReferenceProperty_validate.
  rewrite type_ReferenceProperty. intros H.
  assert (Hchecks : forall value : PyValue,
             (checked <- match ty with
                         | Some (c :: t) =>
                             starts <- method_startswith value (c :: t) ;;
                             if negb starts then
                               Raise (ValueError (str "must start with '" ++ (c :: t)
                                                  ++ str "'."))
                             else Ok tt
                         | _ => Ok tt
                         end ;;
              found <- regex_match REF_REGEX value ;;
              if negb found then Raise (ValueError (str "must match <object-type>--<guid>."))
              else Ok value) = Ok r ->
             exists s, r = PyStr s).
  { intros value Hv.
    destruct value; try (destruct ty as [[|c t]|]; discriminate Hv).
    exists s.
    destruct (match ty with
              | Some (c :: t) =>
                  starts <- method_startswith (PyStr s) (c :: t) ;;
                  if negb starts then
                    Raise (ValueError (str "must start with '" ++ (c :: t) ++ str "'."))
                  else Ok tt
              | _ => Ok tt
              end) as [checked|e]; [|discriminate Hv].
    cbn [bind regex_match] in Hv.
    destruct (negb (match_to_dollar REF_REGEX s)); [discriminate Hv|].
    injection Hv as <-. reflexivity. }
  destruct (match v with
            | PyStix props => attr_id props
            | _ => Ok v
            end) as [value|e]; [|discriminate H].
  cbn [bind] in H. apply (Hchecks value). exact H.
Qed.

Lemma ReferenceProperty_validate_accepted
  (required : bool) (ty : option pystr) (s : pystr) :
  starts_with_type ty s = true ->
  up_to_newline reference_syntax s ->
  validate builtin_str parser_parse (ReferenceProperty required ty) (PyStr s)
  = Ok (PyStr s).
Proof.
  intros Hty Hs. rewrite ReferenceProperty_validate_str, Hty.
  apply (@up_to_newline_iff (lang REF_REGEX) reference_syntax s lang_REF_REGEX) in Hs.
  apply match_to_dollar_spec in Hs. rewrite Hs. reflexivity.
Qed.

(** X14: [ReferenceProperty.validate] accepts a string exactly when it
    starts with the configured type, if one is configured, and is a type
    token of lower-case letters and hyphens, ["--"], and a UUID in groups
    of 8-4-4-4-12 hexadecimal digits, possibly followed by one newline;
    and it returns the string unchanged. *)
Theorem ReferenceProperty_validate_grammar
  (required : bool) (ty : option pystr) (s : pystr) (r : PyValue) :
  validate builtin_str parser_parse (ReferenceProperty required ty) (PyStr s) = Ok r
  <-> starts_with_type ty s = true
      /\ up_to_newline reference_syntax s
      /\ r = PyStr s.
Proof.
  rewrite ReferenceProperty_validate_str.
  rewrite <- (@up_to_newline_iff (lang REF_REGEX) reference_syntax s lang_REF_REGEX).
  rewrite <- match_to_dollar_spec.
  destruct (starts_with_type ty s); [|split; [discriminate|intros [H _]; discriminate H]].
  destruct (match_to_dollar REF_REGEX s).
  - split.
    + intros H. injection H as <-. repeat split.
    + intros (_ & _ & ->). reflexivity.
  - split; [discriminate|]. intros (_ & H & _). discriminate H.
Qed.

(** X15: the checks of [ReferenceProperty.validate] come in a fixed order
    and only strings come out.  A string that does not start with the
    configured type fails with "must start with '<type>'." whether or not
    it is well formed; one that starts with it and is not well formed fails
    with "must match <object-type>--<guid>.".  A STIX object is validated
    as its [id] is, so what is returned for it is the identifier, never
    the object.  An object without [id] reads [None] for it and no
    [ValueError] comes out: with a type configured, [None] has no
    [startswith] and [AttributeError] is raised; without one, the pattern
    is matched against [None] and [TypeError] is raised. *)
Theorem ReferenceProperty_validate_outcomes (required : bool) (ty : option pystr) :
  (forall s : pystr,
      validate builtin_str parser_parse (ReferenceProperty required ty) (PyStr s)
      = Ok (PyStr s)
      \/ (starts_with_type ty s = false
          /\ validate builtin_str parser_parse (ReferenceProperty required ty) (PyStr s)
             = Raise (ValueError (str "must start with '" ++ match ty with
                                                               | Some t => t
                                                               | None => []
                                                               end ++ str "'.")))
      \/ (starts_with_type ty s = true
          /\ validate builtin_str parser_parse (ReferenceProperty required ty) (PyStr s)
             = Raise (ValueError (str "must match <object-type>--<guid>."))))
  /\ (forall (props : list (pystr * PyValue)) (s : pystr),
         lookup (str "id") props = Some (PyStr s) ->
         validate builtin_str parser_parse (ReferenceProperty required ty) (PyStix props)
         = validate builtin_str parser_parse (ReferenceProperty required ty) (PyStr s))
  /\ (forall props : list (pystr * PyValue),
         lookup (str "id") props = None ->
         validate builtin_str parser_parse (ReferenceProperty required ty) (PyStix props)
         = Raise (match ty with
                  | Some (_ :: _) => AttributeError
                  | _ => TypeError
                  end))
  /\ (forall v r : PyValue,
         validate builtin_str parser_parse (ReferenceProperty required ty) v = Ok r ->
         exists s, r = PyStr s).
Proof.
  split; [|split; [|split]].
  - intros s. rewrite ReferenceProperty_validate_str.
    destruct (starts_with_type ty s).
    + destruct (match_to_dollar REF_REGEX s).
      * left. reflexivity.
      * right. right. split; reflexivity.
    + right. left. split; reflexivity.
  - intros props s Hid. apply ReferenceProperty_validate_object. exact Hid.
  - intros props Hid. rewrite validate_ReferenceProperty.
    unfold ReferenceProperty_validate, attr_id, stix_getattr.
    rewrite Hid, type_ReferenceProperty.
    destruct ty as [[|c t]|]; reflexivity.
  - intros v r H. apply (ReferenceProperty_validate_strings_only _ _ _ H).
Qed.

(** X16: [ReferenceProperty] takes what [IDProperty] makes: for a type
    [t] that is a type token, the identifier [IDProperty(t).default()]
    returns is accepted and returned unchanged by
    [ReferenceProperty(type=t).validate] and by a [ReferenceProperty]
    without a type. *)
Theorem ReferenceProperty_accepts_IDProperty_default
  (required : bool) (t : pystr) (urandom : list byte) :
  type_token t ->
  List.length urandom = 16%nat ->
  exists id,
    default (IDProperty t) urandom = Ok (PyStr id)
    /\ validate builtin_str parser_parse (ReferenceProperty required (Some t)) (PyStr id)
       = Ok (PyStr id)
    /\ validate builtin_str parser_parse (ReferenceProperty required None) (PyStr id)
       = Ok (PyStr id).
Proof.
  intros Ht Hlen.
  destruct (@uuid4_version urandom Hlen) as (n & Hn & Hrange & _).
  exists (t ++ str "--" ++ UUID___str__ n).
  assert (Hsyntax : up_to_newline reference_syntax (t ++ str "--" ++ UUID___str__ n)).
  { left. exists t, (UUID___str__ n). split; [reflexivity|]. split; [exact Ht|].
    apply uuid_text_UUID___str__. exact Hrange. }
  split; [|split].
  - change (default (IDProperty t) urandom)
      with (IDProperty_default (IDProperty t) urandom).
    unfold IDProperty_default. rewrite required_prefix_IDProperty, Hn.
    cbn [bind]. rewrite <- app_assoc. reflexivity.
  - apply ReferenceProperty_validate_accepted; [|exact Hsyntax].
    destruct Ht as (c & middle & z & -> & _). cbn [starts_with_type].
    apply (startswith_app (c :: middle ++ [z])).
  - apply ReferenceProperty_validate_accepted; [reflexivity|exact Hsyntax].
Qed.

(** X17: [SelectorProperty.validate] accepts a string exactly when it is
    a selector of the grammar or one followed by a single newline, and
    returns it unchanged; its [type] argument changes nothing; a value
    that is no string raises [TypeError], not [ValueError]. *)
Theorem SelectorProperty_validate_complete (ty : option pystr) :
  (forall (s : pystr) (r : PyValue),
      validate builtin_str parser_parse (SelectorProperty ty) (PyStr s) = Ok r
      <-> up_to_newline selector_syntax s /\ r = PyStr s)
  /\ (forall v : PyValue,
         match v with
         | PyStr _ => True
         | _ => validate builtin_str parser_parse (SelectorProperty ty) v
                = Raise TypeError
         end).
Proof.
  split.
  - intros s r.
    change (SelectorProperty ty) with (SelectorProperty None).
    rewrite SelectorProperty_validate_str.
    rewrite <- (@up_to_newline_iff (lang SELECTOR_REGEX) selector_syntax s
                  lang_SELECTOR_REGEX).
    rewrite <- match_to_dollar_spec.
    destruct (match_to_dollar SELECTOR_REGEX s).
    + split.
      * intros H. injection H as <-. split; reflexivity.
      * intros [_ ->]. reflexivity.
    + split; [discriminate|]. intros [H _]. discriminate H.
  - intros v. destruct v; try exact I; reflexivity.
Qed.

End MoreReferences.

(** ** The calendar and the conversion to UTC *)

Section CalendarFacts.

Local Open Scope Z_scope.

(** The month and the day for the [n]-th day (from 0) of a year, as the
    end of [_ord2ymd] finds them. *)
Definition month_and_day (y : Z) (leapyear : bool) (n : Z) : date :=
  let m := Z.shiftr (n + 50) 5 in
  let preceding :=
    nth (Z.to_nat m) _DAYS_BEFORE_MONTH 0
    + (if (2 <? m) && leapyear then 1 else 0) in
  if n <? preceding then
    let m := m - 1 in
    let preceding :=
      preceding - (nth (Z.to_nat m) _DAYS_IN_MONTH 0
                   + (if (m =? 2) && leapyear then 1 else 0)) in
    mk_date y m (n - preceding + 1)
  else mk_date y m (n - preceding + 1).

Definition month_and_day_ok (leapyear : bool) (k : nat) : bool :=
  let d := month_and_day 0 leapyear (Z.of_nat k) in
  (nth (Z.to_nat (month d)) _DAYS_BEFORE_MONTH 0
   + (if (2 <? month d) && leapyear then 1 else 0) + day d =? Z.of_nat k + 1).

Lemma month_and_day_table (leapyear : bool) :
  forallb (month_and_day_ok leapyear) (seq 0 365) = true.
Proof. destruct leapyear; vm_compute; reflexivity. Qed.

Lemma month_and_day_spec (y : Z) (leapyear : bool) (n : Z) :
  0 <= n < 365 ->
  year (month_and_day y leapyear n) = y
  /\ nth (Z.to_nat (month (month_and_day y leapyear n))) _DAYS_BEFORE_MONTH 0
     + (if (2 <? month (month_and_day y leapyear n)) && leapyear then 1 else 0)
     + day (month_and_day y leapyear n)
     = n + 1.
Proof.
  intros Hn. split.
  - unfold month_and_day. destruct (n <? _); reflexivity.
  - pose proof (month_and_day_table leapyear) as Htable.
    rewrite forallb_forall in Htable.
    specialize (Htable (Z.to_nat n)).
    assert (Hin : In (Z.to_nat n) (seq 0 365)) by (apply in_seq; lia).
    specialize (Htable Hin). unfold month_and_day_ok in Htable.
    rewrite Z2Nat.id in Htable by lia. apply Z.eqb_eq in Htable.
    assert (Hsame : forall y', month (month_and_day y' leapyear n)
                               = month (month_and_day 0 leapyear n)
                               /\ day (month_and_day y' leapyear n)
                                  = day (month_and_day 0 leapyear n)).
    { intros y'. unfold month_and_day. destruct (n <? _); split; reflexivity. }
    destruct (Hsame y) as [-> ->]. exact Htable.
Qed.

Lemma ord2ymd_unfold (n : Z) :
  _ord2ymd n
  = let n0 := n - 1 in
    let n400 := n0 / 146097 in
    let r1 := n0 mod 146097 in
    let n100 := r1 / 36524 in
    let r2 := r1 mod 36524 in
    let n4 := r2 / 1461 in
    let r3 := r2 mod 1461 in
    let n1 := r3 / 365 in
    let r4 := r3 mod 365 in
    let y := n400 * 400 + 1 + n100 * 100 + n4 * 4 + n1 in
    if (n1 =? 4) || (n100 =? 4) then mk_date (y - 1) 12 31
    else month_and_day y ((n1 =? 3) && (negb (n4 =? 24) || (n100 =? 3))) r4.
Proof. reflexivity. Qed.

Lemma is_leap_of_parts (n400 n100 n4 n1 : Z) :
  0 <= n100 < 4 -> 0 <= n4 < 25 -> 0 <= n1 < 4 ->
  _is_leap (n400 * 400 + 1 + n100 * 100 + n4 * 4 + n1)
  = (n1 =? 3) && (negb (n4 =? 24) || (n100 =? 3)).
Proof.
  intros H100 H4 H1. unfold _is_leap.
  set (y := n400 * 400 + 1 + n100 * 100 + n4 * 4 + n1).
  destruct (Z.eqb_spec n1 3) as [E1 | E1];
    destruct (Z.eqb_spec n4 24) as [E4 | E4];
    destruct (Z.eqb_spec n100 3) as [E100 | E100];
    destruct (Z.eqb_spec (y mod 4) 0) as [M4 | M4];
    destruct (Z.eqb_spec (y mod 100) 0) as [M100 | M100];
    destruct (Z.eqb_spec (y mod 400) 0) as [M400 | M400];
    try reflexivity; exfalso; subst y;
    Z.div_mod_to_equations; lia.
Qed.

Theorem ymd2ord_ord2ymd (n : Z) : 1 <= n -> _ymd2ord (_ord2ymd n) = n.
Proof.
  intros Hn. rewrite ord2ymd_unfold. cbv zeta.
  set (n0 := n - 1).
  set (n400 := n0 / 146097). set (r1 := n0 mod 146097).
  set (n100 := r1 / 36524). set (r2 := r1 mod 36524).
  set (n4 := r2 / 1461). set (r3 := r2 mod 1461).
  set (n1 := r3 / 365). set (r4 := r3 mod 365).
  assert (H0 : 0 <= n0) by (subst n0; lia).
  assert (Hr1 : 0 <= r1 < 146097) by (subst r1; apply Z.mod_pos_bound; lia).
  assert (Hr2 : 0 <= r2 < 36524) by (subst r2; apply Z.mod_pos_bound; lia).
  assert (Hr3 : 0 <= r3 < 1461) by (subst r3; apply Z.mod_pos_bound; lia).
  assert (Hr4 : 0 <= r4 < 365) by (subst r4; apply Z.mod_pos_bound; lia).
  assert (E0 : n0 = n400 * 146097 + r1)
    by (subst n400 r1; pose proof (Z.div_mod n0 146097 ltac:(lia)); lia).
  assert (E1 : r1 = n100 * 36524 + r2)
    by (subst n100 r2; pose proof (Z.div_mod r1 36524 ltac:(lia)); lia).
  assert (E2 : r2 = n4 * 1461 + r3)
    by (subst n4 r3; pose proof (Z.div_mod r2 1461 ltac:(lia)); lia).
  assert (E3 : r3 = n1 * 365 + r4)
    by (subst n1 r4; pose proof (Z.div_mod r3 365 ltac:(lia)); lia).
  assert (H100 : 0 <= n100 <= 4).
  { subst n100. split; [apply Z.div_pos; lia|].
    apply Z.lt_succ_r. apply Z.div_lt_upper_bound; lia. }
  assert (H4 : 0 <= n4 < 25).
  { subst n4. split; [apply Z.div_pos; lia|]. apply Z.div_lt_upper_bound; lia. }
  assert (H1 : 0 <= n1 <= 4).
  { subst n1. split; [apply Z.div_pos; lia|].
    apply Z.lt_succ_r. apply Z.div_lt_upper_bound; lia. }
  clearbody n400 r1 n100 r2 n4 r3 n1 r4.
  destruct ((n1 =? 4) || (n100 =? 4)) eqn:Hend.
  - unfold _ymd2ord, _days_before_month, _days_before_year. cbn [year month day].
    change (nth (Z.to_nat 12) _DAYS_BEFORE_MONTH 0) with 334.
    change (2 <? 12) with true. cbn [andb].
    apply orb_true_iff in Hend. rewrite !Z.eqb_eq in Hend.
    assert (Hleap : _is_leap (n400 * 400 + 1 + n100 * 100 + n4 * 4 + n1 - 1) = true).
    { unfold _is_leap. apply andb_true_iff. split.
      - apply Z.eqb_eq. Z.div_mod_to_equations. lia.
      - apply orb_true_iff.
        destruct (Z.eq_dec n100 4) as [E100 | E100].
        + right. apply Z.eqb_eq. Z.div_mod_to_equations. lia.
        + left. apply negb_true_iff. apply Z.eqb_neq. Z.div_mod_to_equations. lia. }
    rewrite Hleap. subst n0. Z.div_mod_to_equations. lia.
  - apply orb_false_iff in Hend. rewrite !Z.eqb_neq in Hend.
    set (leapyear := (n1 =? 3) && (negb (n4 =? 24) || (n100 =? 3))).
    set (y := n400 * 400 + 1 + n100 * 100 + n4 * 4 + n1).
    destruct (@month_and_day_spec y leapyear r4 Hr4) as [Hy Hmd].
    unfold _ymd2ord, _days_before_month. rewrite Hy.
    assert (Hleap : _is_leap y = leapyear).
    { subst y leapyear. apply is_leap_of_parts; lia. }
    rewrite Hleap.
    assert (Hdby : _days_before_year y = n0 - r4).
    { unfold _days_before_year. subst y. Z.div_mod_to_equations. lia. }
    rewrite Hdby. subst n0. lia.
Qed.

Lemma datetime_sub_seconds_wall (d utc : datetime) (off : Z) :
  datetime_sub_seconds d off = Ok utc ->
  wall_seconds (dt_date utc) (dt_time utc)
  = wall_seconds (dt_date d) (dt_time d) - off
  /\ microsecond (dt_time utc) = microsecond (dt_time d)
  /\ dt_tzinfo utc = dt_tzinfo d.
Proof.
  unfold datetime_sub_seconds.
  set (total := wall_seconds (dt_date d) (dt_time d) - off).
  destruct ((0 <? total / 86400) && (total / 86400 <=? _MAXORDINAL)) eqn:Hrange;
    [|discriminate].
  intros H. injection H as <-. cbn [dt_date dt_time dt_tzinfo microsecond].
  split; [|split; reflexivity].
  apply andb_true_iff in Hrange as [Hlow _]. apply Z.ltb_lt in Hlow.
  unfold wall_seconds at 1. cbn [hour minute second].
  rewrite ymd2ord_ord2ymd by lia.
  Z.div_mod_to_equations. lia.
Qed.

End CalendarFacts.

Section MoreTimestamps.

Variable builtin_str : PyValue -> pystr.
Variable parser_parse : PyValue -> result datetime.

Local Open Scope Z_scope.

(** The conversion of a parsed timestamp that has a zone. *)
Lemma TimestampProperty_validate_converts
  (v : PyValue) (parsed : datetime) (tz : tzinfo) :
  isinstance_date v = false ->
  parser_parse v = Ok parsed ->
  dt_tzinfo parsed = Some tz ->
  (exists utc,
      validate builtin_str parser_parse (TimestampProperty no_kwargs) v
      = Ok (PyDateTime utc)
      /\ dt_tzinfo utc = Some pytz_utc
      /\ wall_seconds (dt_date utc) (dt_time utc)
         = wall_seconds (dt_date parsed) (dt_time parsed) - utcoffset tz
      /\ microsecond (dt_time utc) = microsecond (dt_time parsed)
      /\ py_eq (PyDateTime parsed) (PyDateTime utc) = true)
  \/ validate builtin_str parser_parse (TimestampProperty no_kwargs) v
     = Raise OverflowError.
Proof.
  intros Hv Hp Htz.
  assert (Hrun : validate builtin_str parser_parse (TimestampProperty no_kwargs) v
                 = (utc <- astimezone parsed pytz_utc ;; Ok (PyDateTime utc))).
  { unfold validate. cbn. unfold TimestampProperty_validate. rewrite Hp, Htz.
    destruct v; simpl in Hv; try discriminate Hv; reflexivity. }
  rewrite Hrun. unfold astimezone. rewrite Htz.
  destruct (tzinfo_eqb pytz_utc tz) eqn:Heq.
  - left. apply tzinfo_eqb_eq in Heq. subst tz. exists parsed. cbn [bind].
    split; [reflexivity|]. split; [exact Htz|]. split; [cbn; lia|].
    split; [reflexivity|].
    cbn [py_eq]. unfold datetime_eqb. rewrite Htz. cbn [option_map].
    rewrite !Z.eqb_refl. reflexivity.
  - destruct (datetime_sub_seconds parsed (utcoffset tz)) as [utc|e] eqn:Hsub.
    + left. cbn [bind]. exists (replace_tzinfo utc (Some pytz_utc)).
      destruct (datetime_sub_seconds_wall _ _ Hsub) as (Hwall & Hus & _).
      split; [reflexivity|]. split; [reflexivity|].
      cbn [replace_tzinfo dt_date dt_time dt_tzinfo].
      split; [exact Hwall|]. split; [exact Hus|].
      cbn [py_eq]. unfold datetime_eqb. rewrite Htz.
      cbn [replace_tzinfo dt_date dt_time dt_tzinfo option_map pytz_utc utcoffset].
      rewrite Hwall, Hus, Z.sub_0_r, !Z.eqb_refl. reflexivity.
    + right. cbn [bind].
      unfold datetime_sub_seconds in Hsub.
      destruct ((0 <? _) && _); [discriminate Hsub|].
      injection Hsub as <-. reflexivity.
Qed.



End MoreTimestamps.

(** ** Concrete runs of the further properties *)

(** A property with the empty string for [fixed] and a [clean] that is
    not implemented passes [5] through, and has no default. *)
Lemma Property_validate_composition_run :
  py_truthy (PyStr []) = false
  /\ validate sample_str sample_parse
       (new_Property
          (mk_kwargs false (PyStr []) (Some (fun _ => Raise NotImplementedError))
             None None))
       (PyInt 5)
     = Ok (PyInt 5)
  /\ default
       (new_Property
          (mk_kwargs false (PyStr []) (Some (fun _ => Raise NotImplementedError))
             None None))
       sample_urandom
     = Raise AttributeError.
Proof.
  split; [reflexivity|].
  exact (@Property_validate_composition sample_str sample_parse
           (mk_kwargs false (PyStr []) (Some (fun _ => Raise NotImplementedError))
              None None)
           (PyInt 5) sample_urandom eq_refl).
Defined.

(** The datetime made from a date is returned unchanged when validated
    again. *)
Lemma TimestampProperty_validate_idempotent_run :
  validate sample_str sample_parse (TimestampProperty no_kwargs)
    (PyDate (mk_date 2017 1 1))
  = Ok (PyDateTime (mk_datetime (mk_date 2017 1 1) dt_time_midnight
                      (Some pytz_US_Eastern)))
  /\ (exists d,
         PyDateTime (mk_datetime (mk_date 2017 1 1) dt_time_midnight
                       (Some pytz_US_Eastern))
         = PyDateTime d)
  /\ validate sample_str sample_parse (TimestampProperty no_kwargs)
       (PyDateTime (mk_datetime (mk_date 2017 1 1) dt_time_midnight
                      (Some pytz_US_Eastern)))
     = Ok (PyDateTime (mk_datetime (mk_date 2017 1 1) dt_time_midnight
                         (Some pytz_US_Eastern))).
Proof.
  split; [reflexivity|].
  exact (@TimestampProperty_validate_idempotent sample_str sample_parse
           (PyDate (mk_date 2017 1 1)) _ eq_refl).
Defined.

(** A string the parser does not recognise fails with the parser's own
    message. *)
Lemma TimestampProperty_validate_parse_errors_run :
  isinstance_date (PyStr (str "next week")) = false
  /\ sample_parse (PyStr (str "next week"))
     = Raise (ValueError (str "Unknown string format"))
  /\ validate sample_str sample_parse (TimestampProperty no_kwargs)
       (PyStr (str "next week"))
     = Raise (ValueError (str "Unknown string format")).
Proof.
  split; [reflexivity|]. split; [reflexivity|].
  exact (@TimestampProperty_validate_parse_errors sample_str sample_parse
           (PyStr (str "next week")) _ eq_refl eq_refl).
Defined.

(** 32 digits in both cases without any hyphen are taken after
    ["malware--"]. *)
Lemma IDProperty_validate_any_hyphenation_run :
  contains (str "--") (str "malware") = false
  /\ forallb hex_or_hyphen (str "0123456789abcdefABCDEF0123456789") = true
  /\ List.length (filter is_hex (str "0123456789abcdefABCDEF0123456789")) = 32%nat
  /\ validate sample_str sample_parse (IDProperty (str "malware"))
       (PyStr (str "malware" ++ str "--" ++ str "0123456789abcdefABCDEF0123456789"))
     = Ok (PyStr (str "malware" ++ str "--" ++ str "0123456789abcdefABCDEF0123456789")).
Proof.
  split; [reflexivity|]. split; [reflexivity|]. split; [reflexivity|].
  exact (proj1 (@IDProperty_validate_any_hyphenation sample_str sample_parse
                  (str "malware") eq_refl)
           (str "0123456789abcdefABCDEF0123456789") eq_refl eq_refl).
Defined.

(** In a list of booleans the first element that is none stops the
    validation, whatever follows. *)
Lemma ListProperty_validate_fail_fast_run :
  ListProperty_validate
    (mk_Property class_ListProperty false None None false None None
       (Some (contained_instance sample_str sample_parse (BooleanProperty no_kwargs)))
       None)
    (PyList [PyStr (str "t"); PyStr (str "maybe"); PyInt 7])
  = Raise (ValueError (str "must be a boolean value.")).
Proof.
  apply (@ListProperty_validate_fail_fast
           (mk_Property class_ListProperty false None None false None None
              (Some (contained_instance sample_str sample_parse
                       (BooleanProperty no_kwargs)))
              None)
           (contained_instance sample_str sample_parse (BooleanProperty no_kwargs))
           (PyList [PyStr (str "t"); PyStr (str "maybe"); PyInt 7])
           [PyStr (str "t")] [PyInt 7] [PyBool true] (PyStr (str "maybe"))
           (ValueError (str "must be a boolean value."))).
  - reflexivity.
  - reflexivity.
  - reflexivity.
  - reflexivity.
  - discriminate.
Defined.

(** [1] and [None] become ["1"] and ["None"]. *)
Lemma ListProperty_of_StringProperty_run :
  forallb (fun v => negb (is_dict v)) [PyInt 1; PyNone] = true
  /\ validate_of sample_str sample_parse
       (ListProperty sample_str sample_parse (ArgClass class_StringProperty) no_kwargs)
       (PyList [PyInt 1; PyNone])
     = Ok (PyList [PyStr (str "1"); PyStr (str "None")])
  /\ validate_of sample_str sample_parse
       (ListProperty sample_str sample_parse (ArgClass class_StringProperty) no_kwargs)
       (PyStr (str "ab"))
     = Ok (PyList [PyStr (str "a"); PyStr (str "b")]).
Proof.
  split; [reflexivity|].
  exact (@ListProperty_of_StringProperty sample_str sample_parse
           [PyInt 1; PyNone] (str "ab") eq_refl).
Defined.

(** ["false"] and [0] become [True] and [False]. *)
Lemma ListProperty_of_BooleanProperty_class_run :
  forallb (fun v => negb (is_dict v)) [PyStr (str "false"); PyInt 0] = true
  /\ validate_of sample_str sample_parse
       (ListProperty sample_str sample_parse (ArgClass class_BooleanProperty) no_kwargs)
       (PyList [PyStr (str "false"); PyInt 0])
     = Ok (PyList [PyBool true; PyBool false]).
Proof.
  split; [reflexivity|].
  exact (proj1 (@ListProperty_of_BooleanProperty_class sample_str sample_parse
                  [PyStr (str "false"); PyInt 0] eq_refl)).
Defined.

(** A list holding the number [5] passes a list of identifiers; with a
    STIX object after the number it raises [TypeError]. *)
Lemma ListProperty_of_IDProperty_skips_non_strings_run :
  forallb (fun v => negb (is_str v) && negb (is_dict v) && negb (is_stix v)) [PyInt 5] = true
  /\ validate_of sample_str sample_parse
       (ListProperty sample_str sample_parse
          (ArgInstance (IDProperty (str "malware"))) no_kwargs)
       (PyList [PyInt 5])
     = Ok (PyList [PyInt 5])
  /\ validate sample_str sample_parse (IDProperty (str "malware")) (PyInt 5)
     = Raise AttributeError
  /\ validate_of sample_str sample_parse
       (ListProperty sample_str sample_parse
          (ArgInstance (IDProperty (str "malware"))) no_kwargs)
       (PyList [PyInt 5; PyStix [(str "type", PyStr (str "malware"))]])
     = Raise TypeError.
Proof.
  split; [reflexivity|].
  destruct (@ListProperty_of_IDProperty_skips_non_strings sample_str sample_parse
              (str "malware") [PyInt 5] eq_refl) as (Hlist & Hall & Hobject).
  split; [exact Hlist|]. split; [exact (Forall_inv Hall)|].
  exact (Hobject [(str "type", PyStr (str "malware"))] []).
Defined.

Lemma type_token_malware : type_token (str "malware").
Proof.
  exists "m"%char, (str "alwar"), "e"%char. repeat split. cbn. lia.
Qed.

(** The identifier made for ["malware"] is a reference to a malware
    object. *)
Lemma ReferenceProperty_accepts_IDProperty_default_run :
  List.length sample_urandom = 16%nat
  /\ exists id,
       default (IDProperty (str "malware")) sample_urandom = Ok (PyStr id)
       /\ validate sample_str sample_parse
            (ReferenceProperty false (Some (str "malware"))) (PyStr id)
          = Ok (PyStr id)
       /\ validate sample_str sample_parse (ReferenceProperty false None) (PyStr id)
          = Ok (PyStr id).
Proof.
  split; [reflexivity|].
  exact (@ReferenceProperty_accepts_IDProperty_default sample_str sample_parse
           false (str "malware") sample_urandom type_token_malware eq_refl).
Defined.


